(** * The NATS JetStream connector: read iterator and writer

    A shallow embedding of [source/jetstream/iterator.go] and
    [destination/jetstream/writer.go], followed by the properties of the
    acknowledgement protocol, the consumer configuration, the conversion of
    messages to records and the publish path.

    Conventions of the embedding:
    - a Go [error] value is an [option error] ([None] is [nil]); a Go pair
      [(T, error)] is a [result T];
    - [uint64] is a [Z] in [0, 2^64) and its addition wraps around;
    - [[]byte] is a [list byte];
    - the broker client (package [nats]) is an interface, class [nats.Broker]:
      every call takes the state of the connection and returns the new one;
    - the buffered channel of the iterator is its FIFO buffer with its
      capacity; the subscription fills it, [Next] drains it;
    - a call is one step: the mutex of the iterator makes the accesses to
      the queue atomic, and it is not represented. *)

From Stdlib Require Import ZArith List String Ascii Bool Lia.
From Stdlib.Strings Require Import Byte.
Import ListNotations.
Local Open Scope string_scope.
Local Open Scope list_scope.
Local Open Scope Z_scope.

(** ** Go base types *)

Definition bytes := list byte.

(** [bytes.Compare]: lexicographic order on byte strings, as -1, 0 or 1. *)
Fixpoint bytes_Compare (a b : bytes) : Z :=
  match a, b with
  | [], [] => 0
  | [], _ :: _ => -1
  | _ :: _, [] => 1
  | x :: a', y :: b' =>
      match N.compare (Byte.to_N x) (Byte.to_N y) with
      | Lt => -1
      | Gt => 1
      | Eq => bytes_Compare a' b'
      end
  end.

Definition uint64_modulus : Z := 2 ^ 64.
Definition uint64_max : Z := uint64_modulus - 1.

(** Addition of two [uint64] values. *)
Definition uint64_add (a b : Z) : Z := (a + b) mod uint64_modulus.

Module time.

(** A [time.Time] as the instant it denotes: seconds since January 1,
    year 1, 00:00:00 UTC, and the nanoseconds within that second. *)
Record Time := { sec : Z; nsec : Z }.

(** The zero value of [time.Time]. *)
Definition zero : Time := {| sec := 0; nsec := 0 |}.

Definition IsZero (t : Time) : bool := (sec t =? 0) && (nsec t =? 0).

(** A [time.Duration] is a number of nanoseconds. *)
Definition Second : Z := 1000000000.

End time.

Module context.

(** What [ctx.Err()] returns once [ctx.Done()] is closed. *)
Inductive ctxError := Canceled | DeadlineExceeded.

(** A context is either still active ([ctx.Done()] blocks) or done. *)
Inductive Context := Active | Done (e : ctxError).

Definition Err (ctx : Context) : option ctxError :=
  match ctx with
  | Active => None
  | Done e => Some e
  end.

End context.

(** ** Errors *)

Inductive error :=
| ErrUnimplemented                                (* sdk.ErrUnimplemented *)
| ErrContext (e : context.ctxError)               (* ctx.Err() *)
| ErrNats (msg : string)                          (* an error of the broker client *)
| ErrCodec (msg : string)                         (* an error of the position codec *)
| ErrNoUnacknowledged (requested : bytes)
    (* "requested ack for %q but no unacknowledged messages found" *)
| ErrOutOfOrderAck (requested head : bytes)
    (* "ack is out-of-order, requested ack for %q, but first unack. Message is %q" *)
| ErrPanic (msg : string)                         (* a run-time panic *)
| Errorf (context : string) (cause : error).      (* fmt.Errorf("<context>: %w", cause) *)

Inductive result (A : Type) :=
| Ok (a : A)
| Err (e : error).
Arguments Ok {A} a.
Arguments Err {A} e.

(** ** Package nats: the broker client, at its interface *)

Module nats.

Inductive DeliverPolicy :=
| DeliverAllPolicy
| DeliverLastPolicy
| DeliverNewPolicy
| DeliverByStartSequencePolicy
| DeliverByStartTimePolicy
| DeliverLastPerSubjectPolicy.

Inductive AckPolicy := AckNonePolicy | AckAllPolicy | AckExplicitPolicy.

Inductive ReplayPolicy := ReplayInstantPolicy | ReplayOriginalPolicy.

Definition AckPolicy_eqb (a b : AckPolicy) : bool :=
  match a, b with
  | AckNonePolicy, AckNonePolicy
  | AckAllPolicy, AckAllPolicy
  | AckExplicitPolicy, AckExplicitPolicy => true
  | _, _ => false
  end.

Record ConsumerConfig := {
  Durable : string;
  ReplayPolicy_ : ReplayPolicy;
  DeliverSubject : string;
  DeliverPolicy_ : DeliverPolicy;
  OptStartSeq : Z;
  AckPolicy_ : AckPolicy;
  FlowControl : bool;
  Heartbeat : Z
}.

Record ConsumerInfo := {
  Stream : string;
  Name : string;
  Config : ConsumerConfig
}.

Record Subscription := { Subject : string }.

(** [nats.SequencePair]: the consumer and the stream sequence, both uint64. *)
Record SequencePair := { SeqConsumer : Z; SeqStream : Z }.

Record MsgMetadata := {
  Sequence : SequencePair;
  NumDelivered : Z;
  Timestamp : time.Time
}.

(** A delivered message. [Metadata] is what [msg.Metadata()] reports: the
    client decodes it from the reply subject of the message, so it depends
    on the message alone, and every call builds a fresh value. *)
Record Msg := {
  Reply : string;
  Data : bytes;
  Metadata : result MsgMetadata
}.

(** The publish options the writer uses. *)
Inductive PubOpt :=
| RetryWait (dur : Z)
| RetryAttempts (num : Z).

(** The calls made on the connection and its JetStream context. [Conn] is
    the state of the connection as the client sees it. *)
Class Broker := {
  Conn : Type;
  JetStream : Conn -> option error;
  AddConsumer : Conn -> string -> ConsumerConfig -> Conn * result ConsumerInfo;
  ChanSubscribe : Conn -> string -> Z -> string -> Conn * result Subscription;
  MsgAck : Conn -> Msg -> Conn * option error;
  Publish : Conn -> string -> bytes -> list PubOpt -> Conn * option error
}.

End nats.

(** ** Package sdk: records *)

Module sdk.

(** [sdk.Data] is used through its [Bytes] method only. *)
Inductive Data := RawData (b : bytes).

Definition Bytes (d : Data) : bytes :=
  match d with RawData b => b end.

(** The record the iterator builds. *)
Record record := {
  Position : bytes;
  CreatedAt : time.Time;
  Payload : Data
}.

(** Modelled from the spec: the record type the writer receives is declared
    in the SDK; of it the writer reads [record.Payload.After] only, the
    record surface [{payload.after: raw bytes}]. *)
Record Change := { After : Data }.
Record outRecord := { OutPayload : Change }.

End sdk.

(** ** destination/jetstream/writer.go *)

Module destination.
Section Writer.
Context {B : nats.Broker}.

Record Writer := {
  conn : nats.Conn;
  subject : string;
  batchSize : Z;
  publishOpts : list nats.PubOpt;
  retryWait : Z;
  retryAttempts : Z
}.

Record WriterParams := {
  Conn : nats.Conn;
  Subject : string;
  BatchSize : Z;
  RetryWait : Z;
  RetryAttempts : Z
}.

(** [getPublishOptions]: [append] on the nil slice, twice. *)
Definition getPublishOptions (params : WriterParams) : list nats.PubOpt :=
  let opts : list nats.PubOpt := [] in
  let opts :=
    if negb (RetryWait params =? 0)
    then opts ++ [nats.RetryWait (RetryWait params)]
    else opts in
  let opts :=
    if negb (RetryAttempts params =? 0)
    then opts ++ [nats.RetryAttempts (RetryAttempts params)]
    else opts in
  opts.

Definition NewWriter (params : WriterParams) : result Writer :=
  match nats.JetStream (Conn params) with
  | Some err => Err (Errorf "get jetstream context" err)
  | None =>
      Ok {| conn := Conn params;
            subject := Subject params;
            batchSize := BatchSize params;
            publishOpts := getPublishOptions params;
            retryWait := RetryWait params;
            retryAttempts := RetryAttempts params |}
  end.

Definition set_conn (w : Writer) (c : nats.Conn) : Writer :=
  {| conn := c;
     subject := subject w;
     batchSize := batchSize w;
     publishOpts := publishOpts w;
     retryWait := retryWait w;
     retryAttempts := retryAttempts w |}.

(** [Write]: the writer after the call and the error returned. *)
Definition Write (w : Writer) (record : sdk.outRecord) : Writer * option error :=
  if batchSize w >? 1 then (w, Some ErrUnimplemented)
  else
    let '(c, err) :=
      nats.Publish (conn w) (subject w)
        (sdk.Bytes (sdk.After (sdk.OutPayload record))) (publishOpts w) in
    match err with
    | Some err => (set_conn w c, Some (Errorf "publish sync" err))
    | None => (set_conn w c, None)
    end.

End Writer.
End destination.

(** ** source/jetstream/iterator.go *)

Module source.

(** [heartbeatTimeout] is a default heartbeat timeout for push consumers. *)
Definition heartbeatTimeout : Z := 2 * time.Second.

(** The cursor a record carries; [OptSeq] is a uint64. *)
Record position := {
  Durable : string;
  Stream : string;
  Subject : string;
  Timestamp : time.Time;
  OptSeq : Z
}.

(** Modelled from the spec: the position codec ([marshalSDKPosition] and
    [parsePosition], file position.go) is not among the sources at hand. The
    iterator is embedded over any codec; section 4.1 of the spec gives its
    two operations, both fallible. *)
Class PositionCodec := {
  marshalSDKPosition : position -> result bytes;
  parsePosition : bytes -> result position
}.

Section Iterator.
Context {B : nats.Broker} {C : PositionCodec}.

(** A buffered channel of messages: what it holds, oldest first, and its
    capacity. The channel is closed by [Stop] only, after which no operation
    of the iterator may be called; the embedding covers the iterator up to
    there. *)
Record chan := { buf : list nats.Msg; cap : Z }.

(** The iterator. Its [jetstream] field is a view of [conn]: calls made
    through it, or through a message, act on the state of the connection. *)
Record Iterator := {
  conn : nats.Conn;
  messages : chan;
  unackMessages : list nats.Msg;
  consumerInfo : nats.ConsumerInfo;
  subscription : nats.Subscription
}.

(** [IteratorParams]; the fields are those of the source, prefixed. *)
Record IteratorParams := {
  params_Conn : nats.Conn;
  params_BufferSize : Z;
  params_Durable : string;
  params_Stream : string;
  params_Subject : string;
  params_SDKPosition : bytes;
  params_DeliverPolicy : nats.DeliverPolicy;
  params_AckPolicy : nats.AckPolicy
}.

Definition set_conn (i : Iterator) (c : nats.Conn) : Iterator :=
  {| conn := c;
     messages := messages i;
     unackMessages := unackMessages i;
     consumerInfo := consumerInfo i;
     subscription := subscription i |}.

Definition set_messages (i : Iterator) (l : list nats.Msg) : Iterator :=
  {| conn := conn i;
     messages := {| buf := l; cap := cap (messages i) |};
     unackMessages := unackMessages i;
     consumerInfo := consumerInfo i;
     subscription := subscription i |}.

Definition set_unackMessages (i : Iterator) (l : list nats.Msg) : Iterator :=
  {| conn := conn i;
     messages := messages i;
     unackMessages := l;
     consumerInfo := consumerInfo i;
     subscription := subscription i |}.

(** The ack policy the iterator runs under: [i.consumerInfo.Config.AckPolicy]. *)
Definition ackPolicy (i : Iterator) : nats.AckPolicy :=
  nats.AckPolicy_ (nats.Config (consumerInfo i)).

(** [getConsumerConfig] *)
Definition getConsumerConfig (params : IteratorParams) : result nats.ConsumerConfig :=
  match parsePosition (params_SDKPosition params) with
  | Err err => Err (Errorf "parse position" err)
  | Ok position =>
      let deliverPolicy := params_DeliverPolicy params in
      let startSeq := 0 in
      let '(deliverPolicy, startSeq) :=
        if negb (OptSeq position =? 0)
        then (nats.DeliverByStartSequencePolicy, OptSeq position)
        else (deliverPolicy, startSeq) in
      Ok {| nats.Durable := params_Durable params;
            nats.ReplayPolicy_ := nats.ReplayInstantPolicy;
            nats.DeliverSubject := (params_Durable params ++ "." ++ params_Stream params)%string;
            nats.DeliverPolicy_ := deliverPolicy;
            nats.OptStartSeq := startSeq;
            nats.AckPolicy_ := params_AckPolicy params;
            nats.FlowControl := true;
            nats.Heartbeat := heartbeatTimeout |}
  end.

(** [NewIterator]: the state of the connection after the call, and the
    iterator or the error. *)
Definition NewIterator (params : IteratorParams) : nats.Conn * result Iterator :=
  let c := params_Conn params in
  match nats.JetStream c with
  | Some err => (c, Err (Errorf "get jetstream context" err))
  | None =>
      match getConsumerConfig params with
      | Err err => (c, Err (Errorf "get consumer config" err))
      | Ok consumerConfig =>
          let '(c, r) := nats.AddConsumer c (params_Stream params) consumerConfig in
          match r with
          | Err err => (c, Err (Errorf "add jetstream consumer" err))
          | Ok consumerInfo =>
              let messages := {| buf := []; cap := params_BufferSize params |} in
              let '(c, r) :=
                nats.ChanSubscribe c (params_Subject params) (cap messages)
                  (nats.Durable (nats.Config consumerInfo)) in
              match r with
              | Err err => (c, Err (Errorf "chan subscribe" err))
              | Ok subscription =>
                  (c, Ok {| conn := c;
                            messages := messages;
                            unackMessages := [];
                            consumerInfo := consumerInfo;
                            subscription := subscription |})
              end
          end
      end
  end.

(** [HasNext]: [len(i.messages) > 0]. *)
Definition HasNext (i : Iterator) : bool :=
  Z.of_nat (List.length (buf (messages i))) >? 0.

(** The [position] literal of [getMessagePosition]. *)
Definition messagePosition (i : Iterator) (metadata : nats.MsgMetadata) : position :=
  {| Durable := nats.Name (consumerInfo i);
     Stream := nats.Stream (consumerInfo i);
     Subject := nats.Subject (subscription i);
     Timestamp := nats.Timestamp metadata;
     (* add 1 to the sequence in order to skip the consumed message at this
        position and start consuming new messages *)
     OptSeq := uint64_add (nats.SeqStream (nats.Sequence metadata)) 1 |}.

(** [getMessagePosition] *)
Definition getMessagePosition (i : Iterator) (msg : nats.Msg) : result bytes :=
  match nats.Metadata msg with
  | Err err => Err (Errorf "get message metadata" err)
  | Ok metadata =>
      match marshalSDKPosition (messagePosition i metadata) with
      | Err err => Err (Errorf "marshal sdk position" err)
      | Ok sdkPosition => Ok sdkPosition
      end
  end.

(** [messageToRecord]; [now] is what [time.Now()] reads if it is called. *)
Definition messageToRecord (i : Iterator) (msg : nats.Msg) (now : time.Time)
  : result sdk.record :=
  match getMessagePosition i msg with
  | Err err => Err (Errorf "get position" err)
  | Ok position =>
      (* retrieve a message metadata one more time *)
      match nats.Metadata msg with
      | Err err => Err (Errorf "get message metadata" err)
      | Ok metadata =>
          let timestamp :=
            if time.IsZero (nats.Timestamp metadata) then now
            else nats.Timestamp metadata in
          Ok {| sdk.Position := position;
                sdk.CreatedAt := timestamp;
                sdk.Payload := sdk.RawData (nats.Data msg) |}
      end
  end.

(** The two cases of the [select] of [Next]. *)
Inductive selectCase := caseRecv | caseDone.

(** [Next], for the case the [select] takes. [None]: that case cannot
    proceed (nothing buffered, or the context still active), the call stays
    blocked on it. Otherwise the iterator after the call and what it returns. *)
Definition Next (i : Iterator) (ctx : context.Context) (now : time.Time)
  (taken : selectCase) : option (Iterator * result sdk.record) :=
  match taken with
  | caseRecv =>
      match buf (messages i) with
      | [] => None
      | msg :: rest =>
          let i := set_messages i rest in
          match messageToRecord i msg now with
          | Err err => Some (i, Err (Errorf "convert message to record" err))
          | Ok sdkRecord =>
              let i :=
                if negb (nats.AckPolicy_eqb (ackPolicy i) nats.AckNonePolicy)
                then set_unackMessages i (unackMessages i ++ [msg])
                else i in
              Some (i, Ok sdkRecord)
          end
      end
  | caseDone =>
      match context.Err ctx with
      | None => None
      | Some e => Some (i, Err (ErrContext e))
      end
  end.

(** [canAck] *)
Definition canAck (i : Iterator) (sdkPosition : bytes) : option error :=
  match unackMessages i with
  | [] => Some (ErrNoUnacknowledged sdkPosition)
  | head :: _ =>
      match getMessagePosition i head with
      | Err err => Some (Errorf "get position" err)
      | Ok position =>
          if negb (bytes_Compare position sdkPosition =? 0)
          then Some (ErrOutOfOrderAck sdkPosition position)
          else None
      end
  end.

(** [Ack]: the iterator after the call and the error returned. *)
Definition Ack (i : Iterator) (sdkPosition : bytes) : Iterator * option error :=
  (* if ack policy is 'none' just return nil here *)
  if nats.AckPolicy_eqb (ackPolicy i) nats.AckNonePolicy then (i, None)
  else
    match canAck i sdkPosition with
    | Some err => (i, Some (Errorf "message cannot be acknowledged" err))
    | None =>
        match unackMessages i with
        | [] => (i, Some (ErrPanic "index out of range [0] with length 0"))
        | head :: rest =>
            let '(c, err) := nats.MsgAck (conn i) head in
            let i := set_conn i c in
            match err with
            | Some err => (i, Some (Errorf "ack message" err))
            | None =>
                (* remove acknowledged message from the slice *)
                (set_unackMessages i rest, None)
            end
        end
    end.

(** The subscription hands a message to the channel: it is buffered when
    there is room, and is not accepted otherwise. *)
Definition deliver (i : Iterator) (msg : nats.Msg) : Iterator :=
  if Z.of_nat (List.length (buf (messages i))) <? cap (messages i)
  then set_messages i (buf (messages i) ++ [msg])
  else i.

(** What happens to a running iterator. *)
Inductive Event :=
| Delivered (msg : nats.Msg)
| CallNext (ctx : context.Context) (now : time.Time) (taken : selectCase)
| CallAck (sdkPosition : bytes).

Definition step (i : Iterator) (ev : Event) : Iterator :=
  match ev with
  | Delivered msg => deliver i msg
  | CallNext ctx now taken =>
      match Next i ctx now taken with
      | Some (i', _) => i'
      | None => i
      end
  | CallAck sdkPosition => fst (Ack i sdkPosition)
  end.

Definition run (i : Iterator) (evs : list Event) : Iterator :=
  fold_left step evs i.

(** Every message of the queue has a position. *)
Definition positioned (i : Iterator) : Prop :=
  Forall (fun msg => exists p, getMessagePosition i msg = Ok p)
    (unackMessages i).

End Iterator.
End source.

(** ** An in-memory broker and a position codec

    Concrete instances of the two interfaces, on which the embedding runs:
    they serve to evaluate the iterator and the writer on explicit inputs. *)

Module mem.

(** The connection: whether it is closed, what was acknowledged and what was
    published over it, oldest first. *)
Record Conn := {
  closed : bool;
  acked : list nats.Msg;
  published : list (string * bytes * list nats.PubOpt)
}.

Definition ErrConnectionClosed : error := ErrNats "nats: connection closed".

Definition open : Conn := {| closed := false; acked := []; published := [] |}.
Definition shut : Conn := {| closed := true; acked := []; published := [] |}.

Definition JetStream (c : Conn) : option error := None.

Definition AddConsumer (c : Conn) (stream : string) (cfg : nats.ConsumerConfig)
  : Conn * result nats.ConsumerInfo :=
  if closed c then (c, Err ErrConnectionClosed)
  else (c, Ok {| nats.Stream := stream;
                 nats.Name := nats.Durable cfg;
                 nats.Config := cfg |}).

Definition ChanSubscribe (c : Conn) (subj : string) (capacity : Z) (durable : string)
  : Conn * result nats.Subscription :=
  if closed c then (c, Err ErrConnectionClosed)
  else (c, Ok {| nats.Subject := subj |}).

Definition MsgAck (c : Conn) (msg : nats.Msg) : Conn * option error :=
  if closed c then (c, Some ErrConnectionClosed)
  else ({| closed := false; acked := acked c ++ [msg]; published := published c |},
        None).

Definition Publish (c : Conn) (subj : string) (data : bytes) (opts : list nats.PubOpt)
  : Conn * option error :=
  if closed c then (c, Some ErrConnectionClosed)
  else ({| closed := false;
           acked := acked c;
           published := published c ++ [(subj, data, opts)] |},
        None).

#[export] Instance broker : nats.Broker := {|
  nats.Conn := Conn;
  nats.JetStream := JetStream;
  nats.AddConsumer := AddConsumer;
  nats.ChanSubscribe := ChanSubscribe;
  nats.MsgAck := MsgAck;
  nats.Publish := Publish
|}.

(** Modelled from the spec: position.go is not among the sources at hand.
    Section 4.1 asks of the codec that it serializes the five fields, that
    decoding an empty token gives the zero-value position, and that decoding
    a malformed non-empty token fails. This one writes every number on eight
    bytes, most significant first, and every string after its length. *)

Definition byte_of_Z (z : Z) : byte :=
  match Byte.of_N (Z.to_N (z mod 256)) with
  | Some b => b
  | None => x00
  end.

Fixpoint put_uint (n : nat) (z : Z) : bytes :=
  match n with
  | O => []
  | S k => put_uint k (z / 256) ++ [byte_of_Z z]
  end.

Definition get_uint (bs : bytes) : Z :=
  fold_left (fun acc b => acc * 256 + Z.of_N (Byte.to_N b)) bs 0.

Definition put_uint64 (z : Z) : bytes := put_uint 8 (z mod uint64_modulus).

(** A signed 64-bit number, in two's complement. *)
Definition get_int64 (bs : bytes) : Z :=
  let v := get_uint bs in
  if v <? 2 ^ 63 then v else v - uint64_modulus.

Definition put_string (s : string) : bytes :=
  put_uint64 (Z.of_nat (String.length s)) ++ list_byte_of_string s.

Definition take (n : nat) (bs : bytes) : option (bytes * bytes) :=
  if (n <=? List.length bs)%nat then Some (firstn n bs, skipn n bs) else None.

Definition get_string (bs : bytes) : option (string * bytes) :=
  match take 8 bs with
  | None => None
  | Some (l, rest) =>
      match take (Z.to_nat (get_uint l)) rest with
      | None => None
      | Some (s, rest) => Some (string_of_list_byte s, rest)
      end
  end.

Definition marshalSDKPosition (p : source.position) : result bytes :=
  Ok (put_string (source.Durable p)
      ++ put_string (source.Stream p)
      ++ put_string (source.Subject p)
      ++ put_uint64 (time.sec (source.Timestamp p))
      ++ put_uint64 (time.nsec (source.Timestamp p))
      ++ put_uint64 (source.OptSeq p)).

Definition zeroPosition : source.position :=
  {| source.Durable := "";
     source.Stream := "";
     source.Subject := "";
     source.Timestamp := time.zero;
     source.OptSeq := 0 |}.

Definition malformed : error := ErrCodec "malformed position".

Definition parsePosition (token : bytes) : result source.position :=
  match token with
  | [] => Ok zeroPosition
  | _ =>
      match get_string token with
      | None => Err malformed
      | Some (durable, r1) =>
      match get_string r1 with
      | None => Err malformed
      | Some (stream, r2) =>
      match get_string r2 with
      | None => Err malformed
      | Some (subj, r3) =>
      match take 8 r3 with
      | None => Err malformed
      | Some (s, r4) =>
      match take 8 r4 with
      | None => Err malformed
      | Some (ns, r5) =>
      match take 8 r5 with
      | Some (seq, []) =>
          Ok {| source.Durable := durable;
                source.Stream := stream;
                source.Subject := subj;
                source.Timestamp :=
                  {| time.sec := get_int64 s; time.nsec := get_int64 ns |};
                source.OptSeq := get_uint seq |}
      | _ => Err malformed
      end end end end end end
  end.

#[export] Instance codec : source.PositionCodec := {|
  source.marshalSDKPosition := marshalSDKPosition;
  source.parsePosition := parsePosition
|}.

(** A position to resume from, and its token. *)
Definition position11 : source.position :=
  {| source.Durable := "conduit";
     source.Stream := "orders";
     source.Subject := "orders.new";
     source.Timestamp := {| time.sec := 63800000000; time.nsec := 0 |};
     source.OptSeq := 11 |}.

Definition token11 : bytes :=
  Eval vm_compute in
    match marshalSDKPosition position11 with
    | Ok token => token
    | Err _ => []
    end.

(** A JetStream message with the given stream sequence, timestamp and data. *)
Definition msg (seq : Z) (ts : time.Time) (data : bytes) : nats.Msg :=
  {| nats.Reply := "$JS.ACK";
     nats.Data := data;
     nats.Metadata :=
       Ok {| nats.Sequence := {| nats.SeqConsumer := 1; nats.SeqStream := seq |};
             nats.NumDelivered := 1;
             nats.Timestamp := ts |} |}.

(** The same message, delivered once more: the broker redelivers a message
    that was not acknowledged in time, under the same stream sequence and
    timestamp. *)
Definition redelivered (m : nats.Msg) : nats.Msg :=
  {| nats.Reply := nats.Reply m;
     nats.Data := nats.Data m;
     nats.Metadata :=
       match nats.Metadata m with
       | Ok md =>
           Ok {| nats.Sequence :=
                   {| nats.SeqConsumer :=
                        uint64_add (nats.SeqConsumer (nats.Sequence md)) 1;
                      nats.SeqStream := nats.SeqStream (nats.Sequence md) |};
                 nats.NumDelivered := nats.NumDelivered md + 1;
                 nats.Timestamp := nats.Timestamp md |}
       | Err e => Err e
       end |}.

(** An instant of the year 2022. *)
Definition ts : time.Time := {| time.sec := 63800000000; time.nsec := 0 |}.

(** A message that is not a JetStream message: it has no reply subject, and
    [Metadata] reports so. *)
Definition plainMsg (data : bytes) : nats.Msg :=
  {| nats.Reply := "";
     nats.Data := data;
     nats.Metadata := Err (ErrNats "nats: not a jetstream message") |}.

Definition params (c : Conn) (token : bytes) (ack : nats.AckPolicy)
  : source.IteratorParams :=
  {| source.params_Conn := c;
     source.params_BufferSize := 64;
     source.params_Durable := "conduit";
     source.params_Stream := "orders";
     source.params_Subject := "orders.new";
     source.params_SDKPosition := token;
     source.params_DeliverPolicy := nats.DeliverAllPolicy;
     source.params_AckPolicy := ack |}.

(** A running iterator over [c], with the given channel content and queue. *)
Definition iterator (c : Conn) (ack : nats.AckPolicy)
  (buffered unack : list nats.Msg) : source.Iterator :=
  {| source.conn := c;
     source.messages := {| source.buf := buffered; source.cap := 64 |};
     source.unackMessages := unack;
     source.consumerInfo :=
       {| nats.Stream := "orders";
          nats.Name := "conduit";
          nats.Config :=
            {| nats.Durable := "conduit";
               nats.ReplayPolicy_ := nats.ReplayInstantPolicy;
               nats.DeliverSubject := "conduit.orders";
               nats.DeliverPolicy_ := nats.DeliverAllPolicy;
               nats.OptStartSeq := 0;
               nats.AckPolicy_ := ack;
               nats.FlowControl := true;
               nats.Heartbeat := source.heartbeatTimeout |} |};
     source.subscription := {| nats.Subject := "orders.new" |} |}.

(** The position of a message, empty when it has none. *)
Definition positionOf (i : source.Iterator) (m : nats.Msg) : bytes :=
  match source.getMessagePosition i m with
  | Ok p => p
  | Err _ => []
  end.

(** The [OptSeq] a record carries, once its position is decoded. *)
Definition optSeqOf (out : option (source.Iterator * result sdk.record))
  : option Z :=
  match out with
  | Some (_, Ok r) =>
      match parsePosition (sdk.Position r) with
      | Ok p => Some (source.OptSeq p)
      | Err _ => None
      end
  | _ => None
  end.

End mem.

(** ** Shutting down: [Iterator.Stop] and [Writer.Close] *)

Module teardown.

(** The calls made on the subscription, the JetStream context and the
    connection when shutting down; [conn.Close()] returns nothing. *)
Class Calls {B : nats.Broker} := {
  Unsubscribe : nats.Conn -> nats.Subscription -> nats.Conn * option error;
  DeleteConsumer : nats.Conn -> string -> string -> nats.Conn * option error;
  ConnClose : nats.Conn -> nats.Conn
}.

Section Stop.
Context {B : nats.Broker} {T : Calls}.

(** The iterator together with what [Stop] looks at besides its data: which
    of its pointer fields are not nil, and whether its channel is closed. *)
Record Stopping := {
  iter : source.Iterator;
  has_subscription : bool;
  has_jetstream : bool;
  has_conn : bool;
  messages_closed : bool
}.

(** The iterator [NewIterator] returns, running. *)
Definition running (i : source.Iterator) : Stopping :=
  {| iter := i;
     has_subscription := true;
     has_jetstream := true;
     has_conn := true;
     messages_closed := false |}.

Definition set_conn (s : Stopping) (c : nats.Conn) : Stopping :=
  {| iter := source.set_conn (iter s) c;
     has_subscription := has_subscription s;
     has_jetstream := has_jetstream s;
     has_conn := has_conn s;
     messages_closed := messages_closed s |}.

(** [close(i.messages)]; what is buffered stays in the channel. *)
Definition close_messages (s : Stopping) : Stopping :=
  {| iter := iter s;
     has_subscription := has_subscription s;
     has_jetstream := has_jetstream s;
     has_conn := has_conn s;
     messages_closed := true |}.

(** [Stop]: the iterator after the call and the error returned; closing a
    channel that is closed already panics. *)
Definition Stop (s : Stopping) : Stopping * option error :=
  let '(s, err) :=
    if has_subscription s
    then
      let '(c, err) :=
        Unsubscribe (source.conn (iter s)) (source.subscription (iter s)) in
      (set_conn s c, err)
    else (s, None) in
  match err with
  | Some err => (s, Some (Errorf "unsubscribe" err))
  | None =>
      if messages_closed s
      then (s, Some (ErrPanic "close of closed channel"))
      else
        let s := close_messages s in
        let '(s, err) :=
          if has_jetstream s
          then
            let '(c, err) :=
              DeleteConsumer (source.conn (iter s))
                (nats.Stream (source.consumerInfo (iter s)))
                (nats.Name (source.consumerInfo (iter s))) in
            (set_conn s c, err)
          else (s, None) in
        match err with
        | Some err => (s, Some (Errorf "delete consumer" err))
        | None =>
            let s :=
              if has_conn s
              then set_conn s (ConnClose (source.conn (iter s)))
              else s in
            (s, None)
        end
  end.

(** [Writer.Close]; [has_conn] tells whether [w.conn] is not nil. *)
Definition Close (w : destination.Writer) (has_conn : bool)
  : destination.Writer * option error :=
  let w :=
    if has_conn
    then destination.set_conn w (ConnClose (destination.conn w))
    else w in
  (w, None).

End Stop.

(** The calls on the in-memory connection: they fail once it is closed. *)
Definition memUnsubscribe (c : mem.Conn) (sub : nats.Subscription)
  : mem.Conn * option error :=
  if mem.closed c then (c, Some mem.ErrConnectionClosed) else (c, None).

Definition memDeleteConsumer (c : mem.Conn) (stream name : string)
  : mem.Conn * option error :=
  if mem.closed c then (c, Some mem.ErrConnectionClosed) else (c, None).

Definition memClose (c : mem.Conn) : mem.Conn :=
  {| mem.closed := true; mem.acked := mem.acked c; mem.published := mem.published c |}.

#[export] Instance memCalls : Calls (B := mem.broker) :=
  @Build_Calls mem.broker memUnsubscribe memDeleteConsumer memClose.

End teardown.

(** ** What a run has returned and acknowledged *)

Module history.
Section History.
Context {B : nats.Broker} {C : source.PositionCodec}.






(** Records written one after the other: the writer at the end and the
    error of each call. *)
Fixpoint WriteAll (w : destination.Writer) (records : list sdk.outRecord)
  : destination.Writer * list (option error) :=
  match records with
  | [] => (w, [])
  | record :: records =>
      let '(w, err) := destination.Write w record in
      let '(w, errs) := WriteAll w records in
      (w, err :: errs)
  end.

End History.
End history.

(** * Properties *)

(** ** Byte strings and sequence numbers *)

Lemma byte_to_N_inj (x y : byte) : Byte.to_N x = Byte.to_N y -> x = y.
Proof.
  intros H.
  assert (E : Some x = Some y).
  { rewrite <- (Byte.of_to_N x), <- (Byte.of_to_N y). now rewrite H. }
  now inversion E.
Qed.

Lemma bytes_Compare_refl (a : bytes) : bytes_Compare a a = 0.
Proof.
  induction a as [|x a IH]; simpl; [reflexivity|].
  now rewrite N.compare_refl.
Qed.

(** [bytes.Compare] returns 0 on equal byte strings and on them only. *)
Lemma bytes_Compare_eq (a b : bytes) : bytes_Compare a b = 0 <-> a = b.
Proof.
  split.
  - revert b; induction a as [|x a IH]; intros [|y b]; simpl;
      try reflexivity; try discriminate.
    destruct (N.compare (Byte.to_N x) (Byte.to_N y)) eqn:E; try discriminate.
    intros H. apply N.compare_eq_iff in E.
    now rewrite (byte_to_N_inj _ _ E), (IH b H).
  - intros ->. apply bytes_Compare_refl.
Qed.

Lemma bytes_Compare_neq (a b : bytes) :
  a <> b -> negb (bytes_Compare a b =? 0) = true.
Proof.
  intros H. destruct (bytes_Compare a b =? 0) eqn:E; [|reflexivity].
  apply Z.eqb_eq, bytes_Compare_eq in E. contradiction.
Qed.

Lemma uint64_add_1_small (s : Z) :
  0 <= s < uint64_max -> uint64_add s 1 = s + 1.
Proof.
  unfold uint64_add, uint64_max. intros H. apply Z.mod_small. lia.
Qed.

Lemma uint64_add_1_max : uint64_add uint64_max 1 = 0.
Proof. reflexivity. Qed.

(** ** The writer *)

Section WriterProperties.
Context {B : nats.Broker}.

Lemma getPublishOptions_eq (params : destination.WriterParams) :
  destination.getPublishOptions params =
    (if destination.RetryWait params =? 0 then []
     else [nats.RetryWait (destination.RetryWait params)])
    ++ (if destination.RetryAttempts params =? 0 then []
        else [nats.RetryAttempts (destination.RetryAttempts params)]).
Proof.
  unfold destination.getPublishOptions.
  destruct (destination.RetryWait params =? 0),
           (destination.RetryAttempts params =? 0); reflexivity.
Qed.

(** C8. The publish options depend on the retry wait and the number of retry
    attempts only, and building them cannot fail. The wait option is in the
    result exactly when the retry wait is not zero, and then carries it; the
    attempts option is in the result exactly when the number of attempts is
    not zero, and then carries it. Two zeros give no option; two non-zero
    values give exactly the two options, the wait first. *)
Theorem getPublishOptions_spec (params : destination.WriterParams) :
  let wait := destination.RetryWait params in
  let attempts := destination.RetryAttempts params in
  let opts := destination.getPublishOptions params in
  (forall params' : destination.WriterParams,
      destination.RetryWait params' = wait ->
      destination.RetryAttempts params' = attempts ->
      destination.getPublishOptions params' = opts)
  /\ (forall d, In (nats.RetryWait d) opts <-> d = wait /\ wait <> 0)
  /\ (forall n, In (nats.RetryAttempts n) opts <-> n = attempts /\ attempts <> 0)
  /\ (wait = 0 -> attempts = 0 -> opts = [])
  /\ (wait <> 0 -> attempts <> 0 ->
      opts = [nats.RetryWait wait; nats.RetryAttempts attempts]).
Proof.
  cbv zeta. rewrite getPublishOptions_eq.
  split; [|split; [|split; [|split]]].
  - intros params' Hw Ha. rewrite getPublishOptions_eq, Hw, Ha. reflexivity.
  - intros d.
    destruct (Z.eqb_spec (destination.RetryWait params) 0) as [E|E],
             (Z.eqb_spec (destination.RetryAttempts params) 0) as [E'|E'];
      simpl; intuition (try discriminate; congruence).
  - intros n.
    destruct (Z.eqb_spec (destination.RetryWait params) 0) as [E|E],
             (Z.eqb_spec (destination.RetryAttempts params) 0) as [E'|E'];
      simpl; intuition (try discriminate; congruence).
  - intros Hw Ha. rewrite Hw, Ha. reflexivity.
  - intros Hw Ha. apply Z.eqb_neq in Hw, Ha. rewrite Hw, Ha. reflexivity.
Qed.

Lemma NewWriter_fields (params : destination.WriterParams) (w : destination.Writer) :
  destination.NewWriter params = Ok w ->
  destination.conn w = destination.Conn params
  /\ destination.subject w = destination.Subject params
  /\ destination.batchSize w = destination.BatchSize params
  /\ destination.publishOpts w = destination.getPublishOptions params.
Proof.
  unfold destination.NewWriter.
  destruct (nats.JetStream (destination.Conn params)); [discriminate|].
  intros H. inversion H. simpl. auto.
Qed.

(** C7. A writer whose batch size is greater than 1 answers every [Write]
    with [sdk.ErrUnimplemented] and is left as it was: nothing is published.
    A writer whose batch size is 1 makes one [Publish] call, with its
    subject, the bytes of the record's [After] payload and its publish
    options, and returns [nil] when the call succeeds and the error of the
    call wrapped as "publish sync" when it fails. The writer [NewWriter]
    builds has the subject and the batch size of the parameters and the
    options [getPublishOptions] derives from them, and [Write] changes none
    of the three. *)
Theorem Write_spec (w : destination.Writer) (record : sdk.outRecord) :
  (destination.batchSize w > 1 ->
     destination.Write w record = (w, Some ErrUnimplemented))
  /\ (destination.batchSize w = 1 ->
      forall c err,
        nats.Publish (destination.conn w) (destination.subject w)
          (sdk.Bytes (sdk.After (sdk.OutPayload record)))
          (destination.publishOpts w) = (c, err) ->
        destination.Write w record =
          (destination.set_conn w c, option_map (Errorf "publish sync") err))
  /\ (forall params,
        destination.NewWriter params = Ok w ->
        destination.subject w = destination.Subject params
        /\ destination.batchSize w = destination.BatchSize params
        /\ destination.publishOpts w = destination.getPublishOptions params)
  /\ (let w' := fst (destination.Write w record) in
      destination.subject w' = destination.subject w
      /\ destination.batchSize w' = destination.batchSize w
      /\ destination.publishOpts w' = destination.publishOpts w).
Proof.
  split; [|split; [|split]].
  - intros H. unfold destination.Write.
    apply Z.gtb_gt in H. now rewrite H.
  - intros H c err HP. unfold destination.Write.
    rewrite H, HP. simpl. now destruct err.
  - intros params H. apply NewWriter_fields in H. tauto.
  - unfold destination.Write.
    destruct (destination.batchSize w >? 1); [simpl; auto|].
    destruct (nats.Publish _ _ _ _) as [c [err|]]; simpl; auto.
Qed.

End WriterProperties.

Lemma getPublishOptions_spec_witness :
  let params :=
    @destination.Build_WriterParams mem.broker
      mem.open "orders.new" 1 (5 * time.Second) 3 in
  (destination.RetryWait params <> 0 /\ destination.RetryAttempts params <> 0)
  /\ destination.getPublishOptions (B := mem.broker) params
     = [nats.RetryWait 5000000000; nats.RetryAttempts 3].
Proof.
  cbv zeta. split; [split; discriminate|].
  apply (getPublishOptions_spec (B := mem.broker)); discriminate.
Defined.

Lemma Write_spec_witness :
  let record := {| sdk.OutPayload := {| sdk.After := sdk.RawData [x68; x69] |} |} in
  let writer n :=
    @destination.Build_Writer mem.broker
      mem.open "orders.new" n [nats.RetryAttempts 3] 0 3 in
  (destination.batchSize (writer 5) > 1
   /\ destination.Write (B := mem.broker) (writer 5) record
      = (writer 5, Some ErrUnimplemented))
  /\ (destination.batchSize (writer 1) = 1
      /\ mem.published (destination.conn
            (fst (destination.Write (B := mem.broker) (writer 1) record)))
         = [("orders.new", [x68; x69], [nats.RetryAttempts 3])]).
Proof.
  cbv zeta. split; split.
  - reflexivity.
  - apply (Write_spec (B := mem.broker)). reflexivity.
  - reflexivity.
  - erewrite (proj1 (proj2 (Write_spec (B := mem.broker) _ _)));
      [| reflexivity | reflexivity].
    reflexivity.
Defined.

(** ** The consumer configuration *)

Section ConfigProperties.
Context {C : source.PositionCodec}.

(** C2. Once the resume position is decoded, the consumer configuration is
    built, and: when the position's [OptSeq] is not zero the deliver policy
    is [DeliverByStartSequencePolicy] and the start sequence is [OptSeq];
    when it is zero the deliver policy is the configured one and the start
    sequence is zero. *)
Theorem getConsumerConfig_resume {B : nats.Broker}
  (params : source.IteratorParams) (pos : source.position) :
  source.parsePosition (source.params_SDKPosition params) = Ok pos ->
  exists cfg,
    source.getConsumerConfig params = Ok cfg
    /\ (source.OptSeq pos <> 0 ->
        nats.DeliverPolicy_ cfg = nats.DeliverByStartSequencePolicy
        /\ nats.OptStartSeq cfg = source.OptSeq pos)
    /\ (source.OptSeq pos = 0 ->
        nats.DeliverPolicy_ cfg = source.params_DeliverPolicy params
        /\ nats.OptStartSeq cfg = 0).
Proof.
  intros H. unfold source.getConsumerConfig. rewrite H.
  destruct (Z.eqb_spec (source.OptSeq pos) 0) as [E|E]; simpl;
    eexists; (split; [reflexivity|]); simpl; split; intros H'; auto;
    contradiction.
Qed.

End ConfigProperties.

Lemma getConsumerConfig_resume_witness :
  let params := mem.params mem.open mem.token11 nats.AckExplicitPolicy in
  source.parsePosition (PositionCodec := mem.codec) (source.params_SDKPosition params)
    = Ok mem.position11
  /\ exists cfg,
      source.getConsumerConfig (C := mem.codec) params = Ok cfg
      /\ nats.DeliverPolicy_ cfg = nats.DeliverByStartSequencePolicy
      /\ nats.OptStartSeq cfg = 11.
Proof.
  cbv zeta.
  assert (H : source.parsePosition (PositionCodec := mem.codec)
                (source.params_SDKPosition
                   (mem.params mem.open mem.token11 nats.AckExplicitPolicy))
              = Ok mem.position11) by (vm_compute; reflexivity).
  split; [exact H|].
  destruct (getConsumerConfig_resume (B := mem.broker) _ _ H)
    as [cfg [Hc [Hn _]]].
  exists cfg. split; [exact Hc|]. apply Hn. discriminate.
Defined.

(** ** The iterator: conversion of a message *)

Section IteratorProperties.
Context {B : nats.Broker} {C : source.PositionCodec}.

Lemma AckPolicy_eqb_eq (a b : nats.AckPolicy) :
  nats.AckPolicy_eqb a b = true <-> a = b.
Proof. destruct a, b; simpl; split; intros H; congruence. Qed.

Lemma AckPolicy_eqb_neq (a b : nats.AckPolicy) :
  a <> b -> nats.AckPolicy_eqb a b = false.
Proof.
  intros H. destruct (nats.AckPolicy_eqb a b) eqn:E; [|reflexivity].
  apply AckPolicy_eqb_eq in E. contradiction.
Qed.

(** The position of a message depends on the iterator through its consumer
    and its subscription only, which no operation changes. *)
Lemma getMessagePosition_same (i i' : source.Iterator) (msg : nats.Msg) :
  source.consumerInfo i' = source.consumerInfo i ->
  source.subscription i' = source.subscription i ->
  source.getMessagePosition i' msg = source.getMessagePosition i msg.
Proof.
  intros Hc Hs. unfold source.getMessagePosition, source.messagePosition.
  now rewrite Hc, Hs.
Qed.

Lemma messageToRecord_same (i i' : source.Iterator) (msg : nats.Msg) now :
  source.consumerInfo i' = source.consumerInfo i ->
  source.subscription i' = source.subscription i ->
  source.messageToRecord i' msg now = source.messageToRecord i msg now.
Proof.
  intros Hc Hs. unfold source.messageToRecord.
  now rewrite (getMessagePosition_same i i' msg Hc Hs).
Qed.

Lemma getMessagePosition_ok (i : source.Iterator) (msg : nats.Msg) md pos :
  nats.Metadata msg = Ok md ->
  (source.getMessagePosition i msg = Ok pos
   <-> source.marshalSDKPosition (source.messagePosition i md) = Ok pos).
Proof.
  intros Hm. unfold source.getMessagePosition. rewrite Hm.
  destruct (source.marshalSDKPosition _); split; congruence.
Qed.

(** The record of a message whose metadata is there and whose position the
    codec encodes. *)
Lemma messageToRecord_ok (i : source.Iterator) (msg : nats.Msg) now md pos :
  nats.Metadata msg = Ok md ->
  source.marshalSDKPosition (source.messagePosition i md) = Ok pos ->
  source.messageToRecord i msg now =
    Ok {| sdk.Position := pos;
          sdk.CreatedAt :=
            if time.IsZero (nats.Timestamp md) then now else nats.Timestamp md;
          sdk.Payload := sdk.RawData (nats.Data msg) |}.
Proof.
  intros Hm Hp. unfold source.messageToRecord.
  apply (getMessagePosition_ok i msg md pos Hm) in Hp.
  now rewrite Hp, Hm.
Qed.

Lemma messageToRecord_inv (i : source.Iterator) (msg : nats.Msg) now r :
  source.messageToRecord i msg now = Ok r ->
  exists md,
    nats.Metadata msg = Ok md
    /\ source.getMessagePosition i msg = Ok (sdk.Position r)
    /\ r = {| sdk.Position := sdk.Position r;
              sdk.CreatedAt :=
                if time.IsZero (nats.Timestamp md) then now
                else nats.Timestamp md;
              sdk.Payload := sdk.RawData (nats.Data msg) |}.
Proof.
  unfold source.messageToRecord.
  destruct (source.getMessagePosition i msg) as [pos|e] eqn:Hp; [|discriminate].
  destruct (nats.Metadata msg) as [md|e] eqn:Hm; [|discriminate].
  intros H. inversion H. subst r. simpl. exists md. auto.
Qed.

(** The conversion fails only for want of metadata or of an encoding. *)
Lemma messageToRecord_err (i : source.Iterator) (msg : nats.Msg) now err :
  source.messageToRecord i msg now = Err err ->
  (exists e, nats.Metadata msg = Err e)
  \/ (exists md e,
        nats.Metadata msg = Ok md
        /\ source.marshalSDKPosition (source.messagePosition i md) = Err e).
Proof.
  unfold source.messageToRecord, source.getMessagePosition.
  destruct (nats.Metadata msg) as [md|e] eqn:Hm.
  - destruct (source.marshalSDKPosition _) as [pos|e] eqn:Hp; [discriminate|].
    intros _. right. exists md, e. auto.
  - intros _. left. now exists e.
Qed.

(** ** The iterator: [Next] *)

(** What a [Next] call that returns has done. *)
Lemma Next_inv (i i' : source.Iterator) ctx now taken res :
  source.Next i ctx now taken = Some (i', res) ->
  (taken = source.caseDone /\ i' = i
   /\ exists e, context.Err ctx = Some e /\ res = Err (ErrContext e))
  \/ (taken = source.caseRecv
      /\ exists msg rest,
          source.buf (source.messages i) = msg :: rest
          /\ ((exists r,
                  source.messageToRecord i msg now = Ok r
                  /\ res = Ok r
                  /\ i' =
                     if negb (nats.AckPolicy_eqb (source.ackPolicy i)
                                nats.AckNonePolicy)
                     then source.set_unackMessages (source.set_messages i rest)
                            (source.unackMessages i ++ [msg])
                     else source.set_messages i rest)
              \/ (exists err,
                     source.messageToRecord i msg now = Err err
                     /\ res = Err (Errorf "convert message to record" err)
                     /\ i' = source.set_messages i rest))).
Proof.
  unfold source.Next. destruct taken.
  - destruct (source.buf (source.messages i)) as [|msg rest] eqn:Hb;
      [discriminate|].
    rewrite (messageToRecord_same i (source.set_messages i rest) msg now
               eq_refl eq_refl).
    intros H. right. split; [reflexivity|]. exists msg, rest.
    split; [reflexivity|].
    destruct (source.messageToRecord i msg now) as [r|err].
    + left. exists r. inversion H. auto.
    + right. exists err. inversion H. auto.
  - destruct (context.Err ctx) as [e|] eqn:He; [|discriminate].
    intros H. inversion H. left. repeat split. now exists e.
Qed.

Lemma Next_recv_ok (i : source.Iterator) ctx now msg rest r :
  source.buf (source.messages i) = msg :: rest ->
  source.messageToRecord i msg now = Ok r ->
  source.Next i ctx now source.caseRecv =
    Some (if negb (nats.AckPolicy_eqb (source.ackPolicy i) nats.AckNonePolicy)
          then source.set_unackMessages (source.set_messages i rest)
                 (source.unackMessages i ++ [msg])
          else source.set_messages i rest,
          Ok r).
Proof.
  intros Hb Hr. unfold source.Next. rewrite Hb.
  rewrite (messageToRecord_same i (source.set_messages i rest) msg now
             eq_refl eq_refl), Hr.
  reflexivity.
Qed.

Lemma Next_same (i i' : source.Iterator) ctx now taken res :
  source.Next i ctx now taken = Some (i', res) ->
  source.consumerInfo i' = source.consumerInfo i
  /\ source.subscription i' = source.subscription i.
Proof.
  intros H. apply Next_inv in H.
  destruct H as [(_ & -> & _) | (_ & msg & rest & _ & [(r & _ & _ & ->) | (e & _ & _ & ->)])];
    try (split; reflexivity).
  destruct (negb _); split; reflexivity.
Qed.

(** C4 as amended. For a message whose stream sequence [s] is below the
    largest uint64, the position built for it has [OptSeq = s + 1]; the
    position [getMessagePosition] returns for it (the one [canAck] computes
    for the head of the queue) and the position of the record [Next] returns
    for it are the encoding of that position; and of two such messages the
    one with the larger sequence has the strictly larger [OptSeq]. *)
Theorem optSeq_next_sequence (i : source.Iterator) (msg : nats.Msg)
  (md : nats.MsgMetadata) :
  nats.Metadata msg = Ok md ->
  0 <= nats.SeqStream (nats.Sequence md) < uint64_max ->
  source.OptSeq (source.messagePosition i md)
    = nats.SeqStream (nats.Sequence md) + 1
  /\ (forall pos,
        source.getMessagePosition i msg = Ok pos
        <-> source.marshalSDKPosition (source.messagePosition i md) = Ok pos)
  /\ (forall ctx now rest pos,
        source.buf (source.messages i) = msg :: rest ->
        source.marshalSDKPosition (source.messagePosition i md) = Ok pos ->
        exists i' r,
          source.Next i ctx now source.caseRecv = Some (i', Ok r)
          /\ sdk.Position r = pos)
  /\ (forall md2,
        nats.SeqStream (nats.Sequence md) < nats.SeqStream (nats.Sequence md2)
          < uint64_max ->
        source.OptSeq (source.messagePosition i md)
          < source.OptSeq (source.messagePosition i md2)).
Proof.
  intros Hm Hs. split; [|split; [|split]].
  - simpl. now apply uint64_add_1_small.
  - intros pos. now apply getMessagePosition_ok.
  - intros ctx now rest pos Hb Hp.
    pose proof (messageToRecord_ok i msg now md pos Hm Hp) as Hr.
    eexists. eexists. split.
    + apply (Next_recv_ok i ctx now msg rest _ Hb Hr).
    + reflexivity.
  - intros md2 Hs2. simpl.
    rewrite !uint64_add_1_small by lia. lia.
Qed.

(** C9. When [Next] receives a message whose metadata is there and whose
    position the codec encodes, it returns a record; if the timestamp of the
    message is the zero time, the record's [CreatedAt] is the reading of the
    clock, hence not the zero time as long as the clock does not read it;
    otherwise [CreatedAt] is the timestamp of the message. *)
Theorem createdAt_fallback (i : source.Iterator) ctx (now : time.Time)
  (msg : nats.Msg) rest (md : nats.MsgMetadata) pos :
  source.buf (source.messages i) = msg :: rest ->
  nats.Metadata msg = Ok md ->
  source.marshalSDKPosition (source.messagePosition i md) = Ok pos ->
  exists i' r,
    source.Next i ctx now source.caseRecv = Some (i', Ok r)
    /\ (time.IsZero (nats.Timestamp md) = true ->
        sdk.CreatedAt r = now
        /\ (time.IsZero now = false -> time.IsZero (sdk.CreatedAt r) = false))
    /\ (time.IsZero (nats.Timestamp md) = false ->
        sdk.CreatedAt r = nats.Timestamp md).
Proof.
  intros Hb Hm Hp.
  pose proof (messageToRecord_ok i msg now md pos Hm Hp) as Hr.
  eexists. eexists. split.
  - apply (Next_recv_ok i ctx now msg rest _ Hb Hr).
  - simpl. split; intros Hz; rewrite Hz; auto.
Qed.

(** C6. Once the context is done, the cancellation case of [Next] returns
    the error of the context and leaves the iterator as it was: the channel
    and the queue are untouched and no record is returned. For a call that
    is blocked, nothing being buffered, this is the only way to return. *)
Theorem Next_cancelled (i : source.Iterator) ctx e (now : time.Time) :
  context.Err ctx = Some e ->
  source.Next i ctx now source.caseDone = Some (i, Err (ErrContext e))
  /\ (source.buf (source.messages i) = [] ->
      forall taken out,
        source.Next i ctx now taken = Some out ->
        out = (i, Err (ErrContext e))).
Proof.
  intros He. split.
  - simpl. now rewrite He.
  - intros Hb taken [i' res] H. apply Next_inv in H.
    destruct H as [(_ & -> & e' & He' & ->) | (_ & msg & rest & Hb' & _)].
    + congruence.
    + congruence.
Qed.

(** C5 as amended. A [Next] call on a non-empty channel returns, and a
    [Next] call that returns has either taken the cancellation case, leaving
    the iterator untouched, or received the oldest message of the channel.
    The received message is returned as a record carrying its position and
    its data, and is appended to the unacknowledged queue unless the ack
    policy is "none"; or else its conversion has failed, for want of
    metadata or of an encoding of its position, and [Next] returns the
    conversion error with the queue unchanged. *)
Theorem Next_message_fate (i : source.Iterator) ctx (now : time.Time) :
  (forall msg rest,
      source.buf (source.messages i) = msg :: rest ->
      exists out, source.Next i ctx now source.caseRecv = Some out)
  /\ (forall taken i' res,
        source.Next i ctx now taken = Some (i', res) ->
        (i' = i /\ exists e, res = Err (ErrContext e))
        \/ exists msg rest,
            source.buf (source.messages i) = msg :: rest
            /\ source.buf (source.messages i') = rest
            /\ ((exists r,
                    res = Ok r
                    /\ source.getMessagePosition i msg = Ok (sdk.Position r)
                    /\ sdk.Payload r = sdk.RawData (nats.Data msg)
                    /\ source.unackMessages i' =
                       if nats.AckPolicy_eqb (source.ackPolicy i)
                            nats.AckNonePolicy
                       then source.unackMessages i
                       else source.unackMessages i ++ [msg])
                \/ (exists err,
                       res = Err (Errorf "convert message to record" err)
                       /\ source.unackMessages i' = source.unackMessages i
                       /\ ((exists e, nats.Metadata msg = Err e)
                           \/ (exists md e,
                                  nats.Metadata msg = Ok md
                                  /\ source.marshalSDKPosition
                                       (source.messagePosition i md) = Err e))))).
Proof.
  split.
  - intros msg rest Hb. unfold source.Next. rewrite Hb.
    destruct (source.messageToRecord _ msg now); eexists; reflexivity.
  - intros taken i' res H. apply Next_inv in H.
    destruct H as [(_ & -> & e & _ & ->) | (_ & msg & rest & Hb & H)].
    + left. split; [reflexivity|]. now exists e.
    + right. exists msg, rest. split; [exact Hb|].
      destruct H as [(r & Hr & -> & ->) | (err & Hr & -> & ->)].
      * split; [now destruct (negb _)|]. left. exists r.
        destruct (messageToRecord_inv i msg now r Hr) as (md & _ & Hp & Er).
        split; [reflexivity|]. split; [exact Hp|].
        split; [rewrite Er; reflexivity|].
        now destruct (nats.AckPolicy_eqb _ _).
      * split; [reflexivity|]. right. exists err.
        split; [reflexivity|]. split; [reflexivity|].
        exact (messageToRecord_err i msg now err Hr).
Qed.

(** ** The iterator: [Ack] *)

Lemma Ack_none (i : source.Iterator) (p : bytes) :
  source.ackPolicy i = nats.AckNonePolicy -> source.Ack i p = (i, None).
Proof. intros H. unfold source.Ack. now rewrite H. Qed.

Lemma Ack_empty (i : source.Iterator) (p : bytes) :
  source.ackPolicy i <> nats.AckNonePolicy ->
  source.unackMessages i = [] ->
  source.Ack i p =
    (i, Some (Errorf "message cannot be acknowledged" (ErrNoUnacknowledged p))).
Proof.
  intros Hn Hq. unfold source.Ack, source.canAck.
  now rewrite (AckPolicy_eqb_neq _ _ Hn), Hq.
Qed.

Lemma Ack_out_of_order (i : source.Iterator) (p hp : bytes) head rest :
  source.ackPolicy i <> nats.AckNonePolicy ->
  source.unackMessages i = head :: rest ->
  source.getMessagePosition i head = Ok hp ->
  hp <> p ->
  source.Ack i p =
    (i, Some (Errorf "message cannot be acknowledged" (ErrOutOfOrderAck p hp))).
Proof.
  intros Hn Hq Hp Hne. unfold source.Ack, source.canAck.
  now rewrite (AckPolicy_eqb_neq _ _ Hn), Hq, Hp, (bytes_Compare_neq _ _ Hne).
Qed.

(** The head carries the requested position: the outcome is the broker's. *)
Lemma Ack_head (i : source.Iterator) (p : bytes) head rest c r :
  source.ackPolicy i <> nats.AckNonePolicy ->
  source.unackMessages i = head :: rest ->
  source.getMessagePosition i head = Ok p ->
  nats.MsgAck (source.conn i) head = (c, r) ->
  source.Ack i p =
    match r with
    | Some err => (source.set_conn i c, Some (Errorf "ack message" err))
    | None => (source.set_unackMessages (source.set_conn i c) rest, None)
    end.
Proof.
  intros Hn Hq Hp Ha. unfold source.Ack, source.canAck.
  rewrite (AckPolicy_eqb_neq _ _ Hn), Hq, Hp, bytes_Compare_refl, Ha.
  simpl. now destruct r.
Qed.

(** [Ack] indexes the queue after [canAck] has found it non-empty: it cannot
    panic. *)
Lemma Ack_no_panic (i : source.Iterator) (p : bytes) msg :
  snd (source.Ack i p) <> Some (ErrPanic msg).
Proof.
  unfold source.Ack, source.canAck.
  destruct (nats.AckPolicy_eqb _ _); [discriminate|].
  destruct (source.unackMessages i) as [|head rest]; [discriminate|].
  destruct (source.getMessagePosition i head); [|discriminate].
  destruct (negb _); [discriminate|].
  destruct (nats.MsgAck _ _) as [c [err|]]; discriminate.
Qed.

(** What [Ack] does to the queue: it leaves it, or takes its head off. *)
Lemma Ack_queue (i : source.Iterator) (p : bytes) :
  source.unackMessages (fst (source.Ack i p)) = source.unackMessages i
  \/ exists head c,
      source.unackMessages i
        = head :: source.unackMessages (fst (source.Ack i p))
      /\ source.ackPolicy i <> nats.AckNonePolicy
      /\ source.getMessagePosition i head = Ok p
      /\ nats.MsgAck (source.conn i) head = (c, None).
Proof.
  unfold source.Ack, source.canAck.
  destruct (nats.AckPolicy_eqb _ _) eqn:En; [now left|].
  destruct (source.unackMessages i) as [|head rest] eqn:Hq; [now left|].
  destruct (source.getMessagePosition i head) as [hp|e] eqn:Hp; [|now left].
  destruct (bytes_Compare hp p =? 0) eqn:Ec; simpl; [|now left].
  destruct (nats.MsgAck _ _) as [c [err|]] eqn:Ha; simpl; [now left|].
  right. exists head, c. split; [reflexivity|].
  apply Z.eqb_eq, bytes_Compare_eq in Ec. subst hp.
  split; [|auto]. intros E. rewrite E in En. discriminate.
Qed.

Lemma Ack_same (i : source.Iterator) (p : bytes) :
  source.consumerInfo (fst (source.Ack i p)) = source.consumerInfo i
  /\ source.subscription (fst (source.Ack i p)) = source.subscription i
  /\ source.messages (fst (source.Ack i p)) = source.messages i.
Proof.
  unfold source.Ack.
  destruct (nats.AckPolicy_eqb _ _); [auto|].
  destruct (source.canAck i p); [auto|].
  destruct (source.unackMessages i) as [|head rest]; [auto|].
  destruct (nats.MsgAck _ _) as [c [err|]]; simpl; auto.
Qed.

(** ** Runs of the iterator *)

Lemma step_same (i : source.Iterator) (ev : source.Event) :
  source.consumerInfo (source.step i ev) = source.consumerInfo i
  /\ source.subscription (source.step i ev) = source.subscription i.
Proof.
  destruct ev as [msg | ctx now taken | p]; simpl.
  - unfold source.deliver. destruct (_ <? _); auto.
  - destruct (source.Next i ctx now taken) as [[i' res]|] eqn:H; [|auto].
    exact (Next_same _ _ _ _ _ _ H).
  - destruct (Ack_same i p) as (H1 & H2 & _). auto.
Qed.

Lemma run_same (evs : list source.Event) (i : source.Iterator) :
  source.consumerInfo (source.run i evs) = source.consumerInfo i
  /\ source.subscription (source.run i evs) = source.subscription i.
Proof.
  revert i. induction evs as [|ev evs IH]; intros i; [auto|].
  unfold source.run in *. simpl.
  destruct (IH (source.step i ev)) as [H1 H2], (step_same i ev) as [H3 H4].
  split; congruence.
Qed.

Lemma run_ackPolicy (evs : list source.Event) (i : source.Iterator) :
  source.ackPolicy (source.run i evs) = source.ackPolicy i.
Proof.
  unfold source.ackPolicy. now rewrite (proj1 (run_same evs i)).
Qed.

Lemma positioned_same (i i' : source.Iterator) :
  source.consumerInfo i' = source.consumerInfo i ->
  source.subscription i' = source.subscription i ->
  Forall (fun msg => exists p, source.getMessagePosition i msg = Ok p)
    (source.unackMessages i') ->
  source.positioned i'.
Proof.
  intros Hc Hs H. unfold source.positioned.
  eapply Forall_impl; [|exact H].
  intros msg [p Hp]. exists p. now rewrite (getMessagePosition_same i i' msg Hc Hs).
Qed.

Lemma step_positioned (i : source.Iterator) (ev : source.Event) :
  source.positioned i -> source.positioned (source.step i ev).
Proof.
  intros Hi. destruct (step_same i ev) as [Hc Hs].
  apply (positioned_same i _ Hc Hs).
  destruct ev as [msg | ctx now taken | p]; simpl.
  - unfold source.deliver. destruct (_ <? _); exact Hi.
  - destruct (source.Next i ctx now taken) as [[i' res]|] eqn:H; [|exact Hi].
    apply Next_inv in H.
    destruct H as [(_ & -> & _) | (_ & msg & rest & _ & [(r & Hr & _ & ->) | (e & _ & _ & ->)])];
      try exact Hi.
    destruct (negb _); [|exact Hi]. simpl.
    apply Forall_app. split; [exact Hi|].
    constructor; [|constructor].
    destruct (messageToRecord_inv i msg now r Hr) as (md & _ & Hp & _).
    now exists (sdk.Position r).
  - destruct (Ack_queue i p) as [E | (head & c & E & _)].
    + rewrite E. exact Hi.
    + unfold source.positioned in Hi. rewrite E in Hi. now inversion Hi.
Qed.

Lemma run_positioned (evs : list source.Event) (i : source.Iterator) :
  source.positioned i -> source.positioned (source.run i evs).
Proof.
  revert i. induction evs as [|ev evs IH]; intros i Hi; [exact Hi|].
  unfold source.run in *. simpl. apply IH. now apply step_positioned.
Qed.

Lemma NewIterator_fresh (params : source.IteratorParams) c (i : source.Iterator) :
  source.NewIterator params = (c, Ok i) ->
  source.unackMessages i = []
  /\ source.buf (source.messages i) = []
  /\ source.cap (source.messages i) = source.params_BufferSize params.
Proof.
  unfold source.NewIterator.
  destruct (nats.JetStream _); [discriminate|].
  destruct (source.getConsumerConfig params) as [cfg|e]; [|discriminate].
  destruct (nats.AddConsumer _ _ _) as [c1 [info|e]]; [|discriminate].
  destruct (nats.ChanSubscribe _ _ _ _) as [c2 [sub|e]]; [|discriminate].
  intros H. inversion H. simpl. auto.
Qed.

Lemma step_none_queue (i : source.Iterator) (ev : source.Event) :
  source.ackPolicy i = nats.AckNonePolicy ->
  source.unackMessages (source.step i ev) = source.unackMessages i.
Proof.
  intros Hn. destruct ev as [msg | ctx now taken | p]; simpl.
  - unfold source.deliver. now destruct (_ <? _).
  - destruct (source.Next i ctx now taken) as [[i' res]|] eqn:H; [|reflexivity].
    apply Next_inv in H. rewrite Hn in H. simpl in H.
    destruct H as [(_ & -> & _) | (_ & msg & rest & _ & [(r & _ & _ & ->) | (e & _ & _ & ->)])];
      reflexivity.
  - now rewrite Ack_none.
Qed.

(** C3. Under the ack policy "none", [Ack] returns [nil] for any position
    and leaves the iterator as it was; a [Next] call that returns leaves the
    unacknowledged queue as it was; the queue of the iterator [NewIterator]
    builds is empty; and a queue that is empty stays empty whatever is
    delivered and whatever calls are made. *)
Theorem ack_none_bypass (i : source.Iterator) :
  source.ackPolicy i = nats.AckNonePolicy ->
  (forall p, source.Ack i p = (i, None))
  /\ (forall ctx now taken i' res,
        source.Next i ctx now taken = Some (i', res) ->
        source.unackMessages i' = source.unackMessages i)
  /\ (forall params c,
        source.NewIterator params = (c, Ok i) -> source.unackMessages i = [])
  /\ (source.unackMessages i = [] ->
      forall evs, source.unackMessages (source.run i evs) = []).
Proof.
  intros Hn. split; [|split; [|split]].
  - intros p. now apply Ack_none.
  - intros ctx now taken i' res H.
    pose proof (step_none_queue i (source.CallNext ctx now taken) Hn) as E.
    simpl in E. now rewrite H in E.
  - intros params c H. now apply NewIterator_fresh in H.
  - intros Hq evs. revert i Hn Hq.
    induction evs as [|ev evs IH]; intros i Hn Hq; [exact Hq|].
    unfold source.run in *. simpl. apply IH.
    + unfold source.ackPolicy in *. now rewrite (proj1 (step_same i ev)).
    + now rewrite step_none_queue.
Qed.

(** C10. Under an ack policy other than "none", when the head of the queue
    carries the requested position: if the broker refuses the
    acknowledgement, [Ack] returns that error, wrapped as "ack message", and
    the queue is as it was; and if the queue is not as it was after the
    call, the broker has accepted the acknowledgement and exactly the head
    is gone. *)
Theorem Ack_broker_failure (i : source.Iterator) (p : bytes)
  (head : nats.Msg) (rest : list nats.Msg) c r :
  source.ackPolicy i <> nats.AckNonePolicy ->
  source.unackMessages i = head :: rest ->
  source.getMessagePosition i head = Ok p ->
  nats.MsgAck (source.conn i) head = (c, r) ->
  (forall err,
      r = Some err ->
      source.Ack i p = (source.set_conn i c, Some (Errorf "ack message" err))
      /\ source.unackMessages (fst (source.Ack i p)) = head :: rest)
  /\ (source.unackMessages (fst (source.Ack i p)) <> head :: rest ->
      r = None
      /\ snd (source.Ack i p) = None
      /\ source.unackMessages (fst (source.Ack i p)) = rest).
Proof.
  intros Hn Hq Hp Ha. rewrite (Ack_head i p head rest c r Hn Hq Hp Ha).
  split.
  - intros err ->. simpl. auto.
  - destruct r as [err|]; simpl; [|auto].
    intros H. contradiction.
Qed.

(** C1 as amended. On an iterator that started with an empty queue, under
    an ack policy other than "none": if the queue is empty, [Ack] fails with
    the no-unacknowledged-messages error and changes nothing. Otherwise the
    head of the queue has a position; if it differs from the requested one,
    [Ack] fails with the out-of-order error and changes nothing; if it is
    the requested one, [Ack] asks the broker to acknowledge the head, and
    takes exactly the head off the queue when the broker accepts, and
    returns the broker's error with the queue unchanged when it refuses.
    After an accepted ack, the same position asked again is rejected when
    the queue has become empty or its new head has another position. *)
Theorem Ack_protocol (i0 : source.Iterator) (evs : list source.Event)
  (p : bytes) :
  source.unackMessages i0 = [] ->
  source.ackPolicy i0 <> nats.AckNonePolicy ->
  let i := source.run i0 evs in
  (source.unackMessages i = [] ->
   source.Ack i p =
     (i, Some (Errorf "message cannot be acknowledged" (ErrNoUnacknowledged p))))
  /\ (forall head rest,
        source.unackMessages i = head :: rest ->
        exists hp,
          source.getMessagePosition i head = Ok hp
          /\ (hp <> p ->
              source.Ack i p =
                (i, Some (Errorf "message cannot be acknowledged"
                            (ErrOutOfOrderAck p hp))))
          /\ (hp = p ->
              forall c r,
                nats.MsgAck (source.conn i) head = (c, r) ->
                source.Ack i p =
                  match r with
                  | Some err =>
                      (source.set_conn i c, Some (Errorf "ack message" err))
                  | None =>
                      (source.set_unackMessages (source.set_conn i c) rest, None)
                  end)
          /\ (hp = p ->
              forall c,
                nats.MsgAck (source.conn i) head = (c, None) ->
                let i' := fst (source.Ack i p) in
                source.unackMessages i' = rest
                /\ (rest = [] ->
                    source.Ack i' p =
                      (i', Some (Errorf "message cannot be acknowledged"
                                   (ErrNoUnacknowledged p))))
                /\ (forall head' rest' hp',
                      rest = head' :: rest' ->
                      source.getMessagePosition i head' = Ok hp' ->
                      hp' <> p ->
                      source.Ack i' p =
                        (i', Some (Errorf "message cannot be acknowledged"
                                     (ErrOutOfOrderAck p hp')))))).
Proof.
  intros Hq0 Hn0 i.
  assert (Hn : source.ackPolicy i <> nats.AckNonePolicy).
  { unfold i. now rewrite run_ackPolicy. }
  assert (Hpos : source.positioned i).
  { apply run_positioned. unfold source.positioned. rewrite Hq0. constructor. }
  split.
  - intros Hq. now apply Ack_empty.
  - intros head rest Hq. unfold source.positioned in Hpos. rewrite Hq in Hpos.
    apply Forall_inv in Hpos. destruct Hpos as [hp Hp].
    exists hp. split; [exact Hp|]. split; [|split].
    + intros Hne. now apply (Ack_out_of_order i p hp head rest).
    + intros -> c r Ha. now apply (Ack_head i p head rest c r).
    + intros -> c Ha. rewrite (Ack_head i p head rest c None Hn Hq Hp Ha).
      cbv zeta. simpl fst. split; [reflexivity|]. split.
      * intros ->. now apply Ack_empty.
      * intros head' rest' hp' -> Hp' Hne.
        apply (Ack_out_of_order _ p hp' head' rest'); auto.
Qed.

End IteratorProperties.

(** ** The properties on explicit inputs *)

(** C1, where the claim differs from the code. First, a queue holding one
    message and a request for exactly its position, on a connection that is
    closed: the broker refuses, [Ack] returns the error, and the head is
    still in the queue. Second, a queue holding a message and its
    redelivery: the same position is acknowledged twice, both times with
    success. *)
Lemma Ack_head_kept_and_repeat_accepted :
  let m := mem.msg 10 mem.ts [x68; x69] in
  (let i := mem.iterator mem.shut nats.AckExplicitPolicy [] [m] in
   let p := mem.positionOf i m in
   source.getMessagePosition (C := mem.codec) i m = Ok p
   /\ source.Ack (C := mem.codec) i p
      = (i, Some (Errorf "ack message" mem.ErrConnectionClosed))
   /\ source.unackMessages (fst (source.Ack (C := mem.codec) i p)) = [m])
  /\ (let i :=
        mem.iterator mem.open nats.AckExplicitPolicy [] [m; mem.redelivered m] in
      let p := mem.positionOf i m in
      let i1 := fst (source.Ack (C := mem.codec) i p) in
      snd (source.Ack (C := mem.codec) i p) = None
      /\ source.unackMessages i1 = [mem.redelivered m]
      /\ snd (source.Ack (C := mem.codec) i1 p) = None
      /\ source.unackMessages (fst (source.Ack (C := mem.codec) i1 p)) = []).
Proof. vm_compute. repeat split. Qed.

(** C4, where the claim differs from the code: for the largest stream
    sequence the position built for the message has [OptSeq = 0], and so has
    the position of the record [Next] returns, which is neither that
    sequence plus one nor larger than the [OptSeq] of a message of
    sequence 0. *)
Lemma optSeq_wraps_at_last_sequence :
  let i := mem.iterator mem.open nats.AckExplicitPolicy [] [] in
  let md s :=
    {| nats.Sequence := {| nats.SeqConsumer := 1; nats.SeqStream := s |};
       nats.NumDelivered := 1;
       nats.Timestamp := mem.ts |} in
  let next s :=
    source.Next (C := mem.codec)
      (mem.iterator mem.open nats.AckExplicitPolicy [mem.msg s mem.ts []] [])
      context.Active time.zero source.caseRecv in
  0 < uint64_max
  /\ source.OptSeq (source.messagePosition i (md 0)) = 1
  /\ source.OptSeq (source.messagePosition i (md uint64_max)) = 0
  /\ mem.optSeqOf (next 0) = Some 1
  /\ mem.optSeqOf (next uint64_max) = Some 0
  /\ mem.optSeqOf (next uint64_max) <> Some (uint64_max + 1).
Proof. vm_compute. repeat split. discriminate. Qed.

(** C5, where the claim differs from the code: a buffered message without
    metadata is taken off the channel by [Next], which returns the
    conversion error; the message is then neither in the channel nor in the
    queue, and no record was returned for it. *)
Lemma Next_drops_message_without_metadata :
  source.Next (C := mem.codec)
    (mem.iterator mem.open nats.AckExplicitPolicy [mem.plainMsg [x68; x69]] [])
    context.Active time.zero source.caseRecv
  = Some (mem.iterator mem.open nats.AckExplicitPolicy [] [],
          Err (Errorf "convert message to record"
                 (Errorf "get position"
                    (Errorf "get message metadata"
                       (ErrNats "nats: not a jetstream message"))))).
Proof. reflexivity. Qed.

(** The scenario of the spec: three messages of stream sequences 10, 11 and
    12 are delivered and read; the records carry [OptSeq] 11, 12 and 13; the
    ack of the first position succeeds, the same ack again is out of order,
    the ack of the second position succeeds. *)
Example end_to_end_scenario :
  let m s := mem.msg s mem.ts [x68; x69] in
  let next i :=
    source.Next (C := mem.codec) i context.Active time.zero source.caseRecv in
  let after out i0 :=
    match out with Some (i, _) => i | None => i0 end in
  let ack i p := source.Ack (C := mem.codec) i p in
  let i0 := mem.iterator mem.open nats.AckExplicitPolicy [m 10; m 11; m 12] [] in
  let i1 := after (next i0) i0 in
  let i2 := after (next i1) i1 in
  let i3 := after (next i2) i2 in
  let p s := mem.positionOf i0 (m s) in
  mem.optSeqOf (next i0) = Some 11
  /\ mem.optSeqOf (next i1) = Some 12
  /\ mem.optSeqOf (next i2) = Some 13
  /\ source.unackMessages i3 = [m 10; m 11; m 12]
  /\ snd (ack i3 (p 10)) = None
  /\ snd (ack (fst (ack i3 (p 10))) (p 10))
     = Some (Errorf "message cannot be acknowledged"
               (ErrOutOfOrderAck (p 10) (p 11)))
  /\ snd (ack (fst (ack i3 (p 10))) (p 11)) = None.
Proof. vm_compute. repeat split. Qed.

Lemma Ack_protocol_witness :
  let m s := mem.msg s mem.ts [x68; x69] in
  let i0 := mem.iterator mem.open nats.AckExplicitPolicy [] [] in
  let evs :=
    [source.Delivered (m 10); source.Delivered (m 11);
     source.CallNext context.Active time.zero source.caseRecv;
     source.CallNext context.Active time.zero source.caseRecv] in
  let i := source.run (C := mem.codec) i0 evs in
  let p := mem.positionOf i0 (m 11) in
  source.unackMessages i0 = []
  /\ source.ackPolicy i0 <> nats.AckNonePolicy
  /\ source.unackMessages i = [m 10; m 11]
  /\ exists hp,
      source.Ack (C := mem.codec) i p
      = (i, Some (Errorf "message cannot be acknowledged" (ErrOutOfOrderAck p hp))).
Proof.
  cbv zeta.
  split; [reflexivity|]. split; [discriminate|]. split; [reflexivity|].
  destruct
    (proj2
       (Ack_protocol (C := mem.codec)
          (mem.iterator mem.open nats.AckExplicitPolicy [] [])
          [source.Delivered (mem.msg 10 mem.ts [x68; x69]);
           source.Delivered (mem.msg 11 mem.ts [x68; x69]);
           source.CallNext context.Active time.zero source.caseRecv;
           source.CallNext context.Active time.zero source.caseRecv]
          (mem.positionOf (mem.iterator mem.open nats.AckExplicitPolicy [] [])
             (mem.msg 11 mem.ts [x68; x69]))
          eq_refl ltac:(discriminate))
       (mem.msg 10 mem.ts [x68; x69]) [mem.msg 11 mem.ts [x68; x69]] eq_refl)
    as (hp & Hp & Hne & _).
  exists hp. apply Hne. intros E. subst hp.
  vm_compute in Hp. discriminate Hp.
Defined.

Lemma ack_none_bypass_witness :
  let i := mem.iterator mem.open nats.AckNonePolicy [] [] in
  let evs :=
    [source.Delivered (mem.msg 10 mem.ts [x68; x69]);
     source.CallNext context.Active time.zero source.caseRecv;
     source.CallAck [x01]] in
  source.ackPolicy i = nats.AckNonePolicy
  /\ source.Ack (C := mem.codec) i [x01] = (i, None)
  /\ source.unackMessages (source.run (C := mem.codec) i evs) = [].
Proof.
  cbv zeta. split; [reflexivity|]. split.
  - apply (ack_none_bypass (C := mem.codec)). reflexivity.
  - apply (ack_none_bypass (C := mem.codec)); reflexivity.
Defined.

Lemma optSeq_next_sequence_witness :
  let i := mem.iterator mem.open nats.AckExplicitPolicy [] [] in
  let md :=
    {| nats.Sequence := {| nats.SeqConsumer := 1; nats.SeqStream := 10 |};
       nats.NumDelivered := 1;
       nats.Timestamp := mem.ts |} in
  nats.Metadata (mem.msg 10 mem.ts []) = Ok md
  /\ 0 <= nats.SeqStream (nats.Sequence md) < uint64_max
  /\ source.OptSeq (source.messagePosition i md) = 11.
Proof.
  cbv zeta. split; [reflexivity|].
  split; [split; [discriminate | reflexivity]|].
  apply (optSeq_next_sequence (C := mem.codec) _ (mem.msg 10 mem.ts []));
    [reflexivity | split; [discriminate | reflexivity]].
Defined.

Lemma Next_message_fate_witness :
  let m := mem.msg 10 mem.ts [x68; x69] in
  let i := mem.iterator mem.open nats.AckExplicitPolicy [m] [] in
  source.buf (source.messages i) = [m]
  /\ exists out,
      source.Next (C := mem.codec) i context.Active time.zero source.caseRecv
      = Some out.
Proof.
  cbv zeta. split; [reflexivity|].
  apply (proj1 (Next_message_fate (C := mem.codec) _ _ _)
           (mem.msg 10 mem.ts [x68; x69]) []).
  reflexivity.
Defined.

Lemma Next_cancelled_witness :
  let i :=
    mem.iterator mem.open nats.AckExplicitPolicy
      [mem.msg 10 mem.ts [x68; x69]] [] in
  let ctx := context.Done context.Canceled in
  context.Err ctx = Some context.Canceled
  /\ source.Next (C := mem.codec) i ctx time.zero source.caseDone
     = Some (i, Err (ErrContext context.Canceled)).
Proof.
  cbv zeta. split; [reflexivity|].
  apply (Next_cancelled (C := mem.codec)). reflexivity.
Defined.

Lemma createdAt_fallback_witness :
  let m := mem.msg 10 time.zero [x68; x69] in
  let i := mem.iterator mem.open nats.AckExplicitPolicy [m] [] in
  let md :=
    {| nats.Sequence := {| nats.SeqConsumer := 1; nats.SeqStream := 10 |};
       nats.NumDelivered := 1;
       nats.Timestamp := time.zero |} in
  source.buf (source.messages i) = [m]
  /\ nats.Metadata m = Ok md
  /\ source.marshalSDKPosition (PositionCodec := mem.codec)
       (source.messagePosition i md) = Ok (mem.positionOf i m)
  /\ exists i' r,
      source.Next (C := mem.codec) i context.Active mem.ts source.caseRecv
      = Some (i', Ok r)
      /\ sdk.CreatedAt r = mem.ts
      /\ time.IsZero (sdk.CreatedAt r) = false.
Proof.
  cbv zeta. split; [reflexivity|]. split; [reflexivity|].
  assert (Hp : source.marshalSDKPosition (PositionCodec := mem.codec)
                 (source.messagePosition
                    (mem.iterator mem.open nats.AckExplicitPolicy
                       [mem.msg 10 time.zero [x68; x69]] [])
                    {| nats.Sequence :=
                         {| nats.SeqConsumer := 1; nats.SeqStream := 10 |};
                       nats.NumDelivered := 1;
                       nats.Timestamp := time.zero |})
               = Ok (mem.positionOf
                       (mem.iterator mem.open nats.AckExplicitPolicy
                          [mem.msg 10 time.zero [x68; x69]] [])
                       (mem.msg 10 time.zero [x68; x69])))
    by (vm_compute; reflexivity).
  split; [exact Hp|].
  destruct (createdAt_fallback (C := mem.codec)
              (mem.iterator mem.open nats.AckExplicitPolicy
                 [mem.msg 10 time.zero [x68; x69]] [])
              context.Active mem.ts
              (mem.msg 10 time.zero [x68; x69]) [] _ _ eq_refl eq_refl Hp)
    as (i' & r & Hn & Hz & _).
  exists i', r. split; [exact Hn|].
  destruct (Hz eq_refl) as [Hc Hnz]. split; [exact Hc|].
  apply Hnz. reflexivity.
Defined.

Lemma Ack_broker_failure_witness :
  let m := mem.msg 10 mem.ts [x68; x69] in
  let i := mem.iterator mem.shut nats.AckExplicitPolicy [] [m] in
  let p := mem.positionOf i m in
  source.ackPolicy i <> nats.AckNonePolicy
  /\ source.unackMessages i = [m]
  /\ source.getMessagePosition (C := mem.codec) i m = Ok p
  /\ nats.MsgAck (source.conn i) m = (mem.shut, Some mem.ErrConnectionClosed)
  /\ source.Ack (C := mem.codec) i p
     = (source.set_conn i mem.shut,
        Some (Errorf "ack message" mem.ErrConnectionClosed))
  /\ source.unackMessages (fst (source.Ack (C := mem.codec) i p)) = [m].
Proof.
  cbv zeta. split; [discriminate|]. split; [reflexivity|].
  assert (Hp : source.getMessagePosition (C := mem.codec)
                 (mem.iterator mem.shut nats.AckExplicitPolicy []
                    [mem.msg 10 mem.ts [x68; x69]])
                 (mem.msg 10 mem.ts [x68; x69])
               = Ok (mem.positionOf
                       (mem.iterator mem.shut nats.AckExplicitPolicy []
                          [mem.msg 10 mem.ts [x68; x69]])
                       (mem.msg 10 mem.ts [x68; x69])))
    by (vm_compute; reflexivity).
  split; [exact Hp|]. split; [reflexivity|].
  apply (proj1 (Ack_broker_failure (C := mem.codec)
                  (mem.iterator mem.shut nats.AckExplicitPolicy []
                     [mem.msg 10 mem.ts [x68; x69]])
                  _ (mem.msg 10 mem.ts [x68; x69]) [] mem.shut
                  (Some mem.ErrConnectionClosed)
                  ltac:(discriminate) eq_refl Hp eq_refl)).
  reflexivity.
Defined.

(** * Further properties *)

(** ** Construction *)

Section ConstructionProperties.
Context {B : nats.Broker} {C : source.PositionCodec}.

(** X1. [getConsumerConfig] fails exactly when the position does not parse,
    with the error wrapped as "parse position". Otherwise, whatever the
    position and the parameters, the configuration has flow control on, a
    heartbeat of two seconds, the instant replay policy, the deliver subject
    "<durable>.<stream>", the durable name and the ack policy of the
    parameters, and as deliver policy the configured one or
    [DeliverByStartSequencePolicy]. *)
Theorem getConsumerConfig_fixed_fields (params : source.IteratorParams) :
  match source.parsePosition (source.params_SDKPosition params) with
  | Err e => source.getConsumerConfig params = Err (Errorf "parse position" e)
  | Ok _ =>
      exists cfg,
        source.getConsumerConfig params = Ok cfg
        /\ nats.FlowControl cfg = true
        /\ nats.Heartbeat cfg = 2000000000
        /\ nats.ReplayPolicy_ cfg = nats.ReplayInstantPolicy
        /\ nats.DeliverSubject cfg
           = (source.params_Durable params ++ "."
              ++ source.params_Stream params)%string
        /\ nats.Durable cfg = source.params_Durable params
        /\ nats.AckPolicy_ cfg = source.params_AckPolicy params
        /\ (nats.DeliverPolicy_ cfg = source.params_DeliverPolicy params
            \/ nats.DeliverPolicy_ cfg = nats.DeliverByStartSequencePolicy)
  end.
Proof.
  unfold source.getConsumerConfig.
  destruct (source.parsePosition _) as [pos|e]; [|reflexivity].
  destruct (negb (source.OptSeq pos =? 0)); simpl;
    eexists; (split; [reflexivity|]); simpl; repeat split; auto.
Qed.

(** X2. The iterator [NewIterator] returns was built from a configuration
    [getConsumerConfig] gave, a consumer the broker added for it on the
    stream of the parameters, and a subscription made afterwards under the
    durable name the broker reported. It holds the connection as these calls
    left it; its channel has the capacity of the parameters and is empty, so
    [HasNext] is false and [Next] blocks while the context is active; and
    under an ack policy other than "none" any [Ack] fails for want of
    unacknowledged messages. *)
Theorem NewIterator_fresh_iterator (params : source.IteratorParams) c
  (i : source.Iterator) :
  source.NewIterator params = (c, Ok i) ->
  (exists cfg c1,
      nats.JetStream (source.params_Conn params) = None
      /\ source.getConsumerConfig params = Ok cfg
      /\ nats.AddConsumer (source.params_Conn params)
           (source.params_Stream params) cfg = (c1, Ok (source.consumerInfo i))
      /\ nats.ChanSubscribe c1 (source.params_Subject params)
           (source.params_BufferSize params)
           (nats.Durable (nats.Config (source.consumerInfo i)))
         = (c, Ok (source.subscription i)))
  /\ source.conn i = c
  /\ source.cap (source.messages i) = source.params_BufferSize params
  /\ source.HasNext i = false
  /\ (forall now taken, source.Next i context.Active now taken = None)
  /\ (source.ackPolicy i <> nats.AckNonePolicy ->
      forall p,
        source.Ack i p =
          (i, Some (Errorf "message cannot be acknowledged"
                      (ErrNoUnacknowledged p)))).
Proof.
  intros H.
  destruct (NewIterator_fresh params c i H) as (Hq & Hb & Hc).
  split; [|split; [|split; [|split; [|split]]]].
  - unfold source.NewIterator in H.
    destruct (nats.JetStream _) eqn:Hj; [discriminate|].
    destruct (source.getConsumerConfig params) as [cfg|e]; [|discriminate].
    destruct (nats.AddConsumer _ _ _) as [c1 [info|e]] eqn:Ha; [|discriminate].
    simpl in H.
    destruct (nats.ChanSubscribe _ _ _ _) as [c2 [sub|e]] eqn:Hs; [|discriminate].
    inversion H. subst. simpl. exists cfg, c1. auto.
  - unfold source.NewIterator in H.
    destruct (nats.JetStream _); [discriminate|].
    destruct (source.getConsumerConfig params) as [cfg|e]; [|discriminate].
    destruct (nats.AddConsumer _ _ _) as [c1 [info|e]]; [|discriminate].
    destruct (nats.ChanSubscribe _ _ _ _) as [c2 [sub|e]]; [|discriminate].
    inversion H. reflexivity.
  - exact Hc.
  - unfold source.HasNext. now rewrite Hb.
  - intros now taken. unfold source.Next. rewrite Hb. now destruct taken.
  - intros Hn p. now apply Ack_empty.
Qed.

(** X3. The failures of [NewIterator], each wrapped with the name of its
    step. When the JetStream context cannot be had, or the position does not
    parse, it fails before any call that changes the broker: the connection
    is as it was, no consumer was added and no subscription made. When
    adding the consumer fails, no subscription is made. When subscribing
    fails, the consumer was added already, and it is not deleted. *)
Theorem NewIterator_errors (params : source.IteratorParams) c err :
  source.NewIterator params = (c, Err err) ->
  (exists e,
      nats.JetStream (source.params_Conn params) = Some e
      /\ c = source.params_Conn params
      /\ err = Errorf "get jetstream context" e)
  \/ (exists e,
        source.parsePosition (source.params_SDKPosition params) = Err e
        /\ c = source.params_Conn params
        /\ err = Errorf "get consumer config" (Errorf "parse position" e))
  \/ (exists cfg e,
        source.getConsumerConfig params = Ok cfg
        /\ nats.AddConsumer (source.params_Conn params)
             (source.params_Stream params) cfg = (c, Err e)
        /\ err = Errorf "add jetstream consumer" e)
  \/ (exists cfg c1 info e,
        source.getConsumerConfig params = Ok cfg
        /\ nats.AddConsumer (source.params_Conn params)
             (source.params_Stream params) cfg = (c1, Ok info)
        /\ nats.ChanSubscribe c1 (source.params_Subject params)
             (source.params_BufferSize params)
             (nats.Durable (nats.Config info)) = (c, Err e)
        /\ err = Errorf "chan subscribe" e).
Proof.
  unfold source.NewIterator. intros HN.
  destruct (nats.JetStream _) as [e|] eqn:Hj.
  { inversion HN. left. exists e. auto. }
  right.
  destruct (source.getConsumerConfig params) as [cfg|e] eqn:Hc.
  - right.
    destruct (nats.AddConsumer _ _ _) as [c1 [info|e]] eqn:Ha.
    + right. simpl in HN.
      destruct (nats.ChanSubscribe _ _ _ _) as [c2 [sub|e]] eqn:Hs;
        [discriminate|].
      inversion HN. subst. exists cfg, c1, info, e. auto.
    + left. inversion HN. subst. exists cfg, e. auto.
  - left. inversion HN. subst.
    unfold source.getConsumerConfig in Hc.
    destruct (source.parsePosition _) as [pos|e0];
      [destruct (negb _); discriminate|].
    inversion Hc. exists e0. auto.
Qed.

End ConstructionProperties.

(** ** Reading *)

Section ReadingProperties.
Context {B : nats.Broker} {C : source.PositionCodec}.

(** X4. [HasNext] is true exactly when the receive case of [Next] can
    proceed; when it is false and the context is active, [Next] blocks. *)
Theorem HasNext_iff_Next_receives (i : source.Iterator) ctx (now : time.Time) :
  (source.HasNext i = true
   <-> exists out, source.Next i ctx now source.caseRecv = Some out)
  /\ (source.HasNext i = false ->
      forall taken, source.Next i context.Active now taken = None).
Proof.
  unfold source.HasNext, source.Next.
  destruct (source.buf (source.messages i)) as [|msg rest]; simpl.
  - split.
    + split; [discriminate|]. intros [out H]. discriminate.
    + intros _ taken. now destruct taken.
  - split.
    + split; [|reflexivity]. intros _.
      destruct (source.messageToRecord _ msg now); eexists; reflexivity.
    + discriminate.
Qed.

(** X5. The position of a message does not change over a run of the
    iterator, and the position of its record does not depend on the clock:
    the position [Ack] computes for a queued message is the one [Next] gave
    to its record, whenever the two calls are made. *)
Theorem position_stable (i : source.Iterator) (evs : list source.Event)
  (msg : nats.Msg) (now1 now2 : time.Time) :
  source.getMessagePosition (source.run i evs) msg
    = source.getMessagePosition i msg
  /\ (forall r,
        source.messageToRecord i msg now1 = Ok r ->
        source.getMessagePosition (source.run i evs) msg = Ok (sdk.Position r)
        /\ exists r',
            source.messageToRecord (source.run i evs) msg now2 = Ok r'
            /\ sdk.Position r' = sdk.Position r).
Proof.
  destruct (run_same evs i) as [Hc Hs].
  pose proof (getMessagePosition_same i (source.run i evs) msg Hc Hs) as E.
  split; [exact E|].
  intros r Hr.
  destruct (messageToRecord_inv i msg now1 r Hr) as (md & Hm & Hp & _).
  split; [now rewrite E|].
  rewrite (messageToRecord_same i (source.run i evs) msg now2 Hc Hs).
  apply (getMessagePosition_ok i msg md _ Hm) in Hp.
  rewrite (messageToRecord_ok i msg now2 md _ Hm Hp).
  eexists. split; reflexivity.
Qed.

(** X6. The errors of [Next]: the error of the context, from the
    cancellation case; or, from the receive case, the error of the metadata
    of the oldest buffered message, or the error of the encoding of its
    position, each wrapped as "convert message to record: get position: ...".
    The second retrieval of the metadata, in [messageToRecord], never
    fails. *)
Theorem Next_errors (i i' : source.Iterator) ctx now taken err :
  source.Next i ctx now taken = Some (i', Err err) ->
  (taken = source.caseDone
   /\ exists e, context.Err ctx = Some e /\ err = ErrContext e)
  \/ (exists msg rest e,
        source.buf (source.messages i) = msg :: rest
        /\ nats.Metadata msg = Err e
        /\ err = Errorf "convert message to record"
                   (Errorf "get position" (Errorf "get message metadata" e)))
  \/ (exists msg rest md e,
        source.buf (source.messages i) = msg :: rest
        /\ nats.Metadata msg = Ok md
        /\ source.marshalSDKPosition (source.messagePosition i md) = Err e
        /\ err = Errorf "convert message to record"
                   (Errorf "get position" (Errorf "marshal sdk position" e))).
Proof.
  intros H. apply Next_inv in H.
  destruct H as [(Ht & _ & e & He & Hr) | (_ & msg & rest & Hb & H)].
  - left. split; [exact Ht|]. exists e. split; [exact He|]. now inversion Hr.
  - right. destruct H as [(r & _ & Hr & _) | (e & Hc & Hr & _)];
      [discriminate|].
    inversion Hr. subst err. clear Hr.
    unfold source.messageToRecord, source.getMessagePosition in Hc.
    destruct (nats.Metadata msg) as [md|e0] eqn:Hm.
    + destruct (source.marshalSDKPosition _) as [pos|e1] eqn:Hp;
        [discriminate|].
      right. exists msg, rest, md, e1. inversion Hc. auto.
    + left. exists msg, rest, e0. inversion Hc. auto.
Qed.

(** X7. Reading never contacts the broker: a [Next] call that returns
    leaves the connection as it was. [Ack] leaves it as it was too, unless
    the ack policy is not "none" and the head of the queue carries the
    requested position, in which case it makes the one acknowledgement call
    for the head. Under the ack policy "none" the connection is therefore
    the same after any run. *)
Theorem broker_contacted_by_matching_ack_only (i : source.Iterator) :
  (forall ctx now taken i' res,
      source.Next i ctx now taken = Some (i', res) ->
      source.conn i' = source.conn i)
  /\ (forall p,
        source.conn (fst (source.Ack i p)) = source.conn i
        \/ exists head rest,
            source.unackMessages i = head :: rest
            /\ source.ackPolicy i <> nats.AckNonePolicy
            /\ source.getMessagePosition i head = Ok p
            /\ source.conn (fst (source.Ack i p))
               = fst (nats.MsgAck (source.conn i) head))
  /\ (source.ackPolicy i = nats.AckNonePolicy ->
      forall evs, source.conn (source.run i evs) = source.conn i).
Proof.
  assert (HN : forall (j j' : source.Iterator) ctx now taken res,
             source.Next j ctx now taken = Some (j', res) ->
             source.conn j' = source.conn j).
  { intros j j' ctx now taken res H. apply Next_inv in H.
    destruct H as [(_ & -> & _) | (_ & msg & rest & _ & [(r & _ & _ & ->) | (e & _ & _ & ->)])];
      try reflexivity.
    now destruct (negb _). }
  split; [intros ctx now taken i' res H; exact (HN _ _ _ _ _ _ H)|]. split.
  - intros p. unfold source.Ack, source.canAck.
    destruct (nats.AckPolicy_eqb _ _) eqn:En; [now left|].
    destruct (source.unackMessages i) as [|head rest] eqn:Hq; [now left|].
    destruct (source.getMessagePosition i head) as [hp|e] eqn:Hp; [|now left].
    destruct (bytes_Compare hp p =? 0) eqn:Ec; simpl; [|now left].
    apply Z.eqb_eq, bytes_Compare_eq in Ec. subst hp.
    right. exists head, rest. split; [reflexivity|].
    split; [intros E; rewrite E in En; discriminate|].
    split; [exact Hp|].
    now destruct (nats.MsgAck _ _) as [c [err|]].
  - intros Hn evs. revert i Hn.
    induction evs as [|ev evs IH]; intros i Hn; [reflexivity|].
    unfold source.run in *. simpl. rewrite IH.
    + destruct ev as [msg | ctx now taken | p]; simpl.
      * unfold source.deliver. now destruct (_ <? _).
      * destruct (source.Next i ctx now taken) as [[i' res]|] eqn:H;
          [|reflexivity].
        exact (HN _ _ _ _ _ _ H).
      * now rewrite Ack_none.
    + unfold source.ackPolicy in *. now rewrite (proj1 (step_same i ev)).
Qed.

End ReadingProperties.

(** ** Acknowledging over a run *)

Section AckRunProperties.
Context {B : nats.Broker} {C : source.PositionCodec}.






End AckRunProperties.

(** ** Shutting down *)

Section TeardownProperties.
Context {B : nats.Broker} {T : teardown.Calls}.

(** X10. [Stop] on a running iterator stops at the first step that fails.
    If unsubscribing fails, the error is returned wrapped as "unsubscribe",
    the channel is not closed, the consumer is not deleted and the
    connection is not closed. If unsubscribing succeeds and deleting the
    consumer fails, the error is returned wrapped as "delete consumer", the
    channel is closed and the connection is not closed. If both succeed the
    channel is closed, the connection is closed, and [Stop] returns [nil]. *)
Theorem Stop_partial_teardown (i : source.Iterator) c1 r1 c2 r2 :
  teardown.Unsubscribe (source.conn i) (source.subscription i) = (c1, r1) ->
  teardown.DeleteConsumer c1
    (nats.Stream (source.consumerInfo i)) (nats.Name (source.consumerInfo i))
    = (c2, r2) ->
  (forall e,
      r1 = Some e ->
      teardown.Stop (teardown.running i)
      = (teardown.running (source.set_conn i c1),
         Some (Errorf "unsubscribe" e)))
  /\ (forall e,
        r1 = None -> r2 = Some e ->
        teardown.Stop (teardown.running i)
        = (teardown.close_messages (teardown.running (source.set_conn i c2)),
           Some (Errorf "delete consumer" e)))
  /\ (r1 = None -> r2 = None ->
      teardown.Stop (teardown.running i)
      = (teardown.close_messages
           (teardown.running (source.set_conn i (teardown.ConnClose c2))),
         None)).
Proof.
  intros H1 H2. unfold teardown.Stop. simpl. rewrite H1.
  split; [|split].
  - intros e ->. reflexivity.
  - intros e -> ->. simpl. rewrite H2. reflexivity.
  - intros -> ->. simpl. rewrite H2. reflexivity.
Qed.



End TeardownProperties.

(** ** Writing *)

Section WritingProperties.
Context {B : nats.Broker}.

(** The gate of [Write] is [batchSize > 1]: every other batch size, zero
    and the negative ones included, publishes. *)
Lemma Write_gate (w : destination.Writer) (record : sdk.outRecord) :
  (destination.batchSize w > 1 ->
   destination.Write w record = (w, Some ErrUnimplemented))
  /\ (destination.batchSize w <= 1 ->
      destination.Write w record =
        (destination.set_conn w
           (fst (nats.Publish (destination.conn w) (destination.subject w)
                   (sdk.Bytes (sdk.After (sdk.OutPayload record)))
                   (destination.publishOpts w))),
         option_map (Errorf "publish sync")
           (snd (nats.Publish (destination.conn w) (destination.subject w)
                   (sdk.Bytes (sdk.After (sdk.OutPayload record)))
                   (destination.publishOpts w))))).
Proof.
  unfold destination.Write. split; intros H.
  - apply Z.gtb_gt in H. now rewrite H.
  - destruct (destination.batchSize w >? 1) eqn:E.
    + apply Z.gtb_gt in E. lia.
    + destruct (nats.Publish _ _ _ _) as [c [err|]]; reflexivity.
Qed.

(** A writer whose batch size is greater than 1 never publishes:
    whatever records are written one after the other, every call returns
    [sdk.ErrUnimplemented] and the writer, with its connection, is at the
    end as it was. *)
Theorem WriteAll_unimplemented (w : destination.Writer)
  (records : list sdk.outRecord) :
  destination.batchSize w > 1 ->
  history.WriteAll w records
  = (w, map (fun _ => Some ErrUnimplemented) records).
Proof.
  intros H. induction records as [|record records IH]; [reflexivity|].
  simpl. rewrite (proj1 (Write_gate w record) H), IH. reflexivity.
Qed.

(** X13. A writer whose batch size is at most 1, zero and the negative
    sizes included, publishes every record it is given, one [Publish] call
    after the other on the connection as the previous call left it, always
    with its own subject and options; a call returns [nil] exactly when its
    [Publish] does, and a failed call does not keep the next from
    publishing. *)
Theorem WriteAll_publishes_each (w : destination.Writer)
  (records : list sdk.outRecord) :
  destination.batchSize w <= 1 ->
  fst (history.WriteAll w records)
  = destination.set_conn w
      (fold_left
         (fun c record =>
            fst (nats.Publish c (destination.subject w)
                   (sdk.Bytes (sdk.After (sdk.OutPayload record)))
                   (destination.publishOpts w)))
         records (destination.conn w))
  /\ List.length (snd (history.WriteAll w records)) = List.length records
  /\ (forall record,
        snd (destination.Write w record) = None
        <-> snd (nats.Publish (destination.conn w) (destination.subject w)
                   (sdk.Bytes (sdk.After (sdk.OutPayload record)))
                   (destination.publishOpts w)) = None).
Proof.
  intros H. split; [|split].
  - revert w H. induction records as [|record records IH]; intros w H.
    + now destruct w.
    + simpl. rewrite (proj2 (Write_gate w record) H).
      specialize (IH (destination.set_conn w
                        (fst (nats.Publish (destination.conn w)
                                (destination.subject w)
                                (sdk.Bytes (sdk.After (sdk.OutPayload record)))
                                (destination.publishOpts w)))) H).
      destruct (history.WriteAll _ records) as [w' errs].
      simpl in IH. simpl. exact IH.
  - clear H. revert w. induction records as [|record records IH]; intros w;
      [reflexivity|].
    simpl. destruct (destination.Write w record) as [w1 err].
    specialize (IH w1). destruct (history.WriteAll w1 records) as [w' errs].
    simpl in *. now rewrite IH.
  - intros record. rewrite (proj2 (Write_gate w record) H). simpl.
    destruct (snd (nats.Publish _ _ _ _)); simpl; split; congruence.
Qed.

End WritingProperties.

Section AckErrorProperties.
Context {B : nats.Broker} {C : source.PositionCodec}.

(** X14. The errors of [Ack], and what a failed [Ack] leaves: an [Ack] that
    returns an error runs under an ack policy other than "none" and has not
    changed the queue; the error is "message cannot be acknowledged",
    wrapping the no-unacknowledged-messages error on an empty queue, the
    out-of-order error when the head has another position, or the error of
    the position of the head; or it is the error of the broker, wrapped as
    "ack message", when the head has the requested position. It is never a
    panic: the queue is indexed only when it is not empty. *)
Theorem Ack_errors (i : source.Iterator) (p : bytes) err :
  snd (source.Ack i p) = Some err ->
  source.ackPolicy i <> nats.AckNonePolicy
  /\ source.unackMessages (fst (source.Ack i p)) = source.unackMessages i
  /\ ((source.unackMessages i = []
       /\ err = Errorf "message cannot be acknowledged"
                  (ErrNoUnacknowledged p))
      \/ (exists head rest hp,
             source.unackMessages i = head :: rest
             /\ source.getMessagePosition i head = Ok hp
             /\ hp <> p
             /\ err = Errorf "message cannot be acknowledged"
                        (ErrOutOfOrderAck p hp))
      \/ (exists head rest e,
             source.unackMessages i = head :: rest
             /\ source.getMessagePosition i head = Err e
             /\ err = Errorf "message cannot be acknowledged"
                        (Errorf "get position" e))
      \/ (exists head rest c e,
             source.unackMessages i = head :: rest
             /\ source.getMessagePosition i head = Ok p
             /\ nats.MsgAck (source.conn i) head = (c, Some e)
             /\ err = Errorf "ack message" e)).
Proof.
  unfold source.Ack, source.canAck.
  destruct (nats.AckPolicy_eqb _ _) eqn:En; [discriminate|].
  assert (Hn : source.ackPolicy i <> nats.AckNonePolicy).
  { intros E. rewrite E in En. discriminate. }
  destruct (source.unackMessages i) as [|head rest] eqn:Hq.
  - simpl. intros H. inversion H. rewrite Hq. auto.
  - destruct (source.getMessagePosition i head) as [hp|e] eqn:Hp.
    + destruct (bytes_Compare hp p =? 0) eqn:Ec; simpl.
      * apply Z.eqb_eq, bytes_Compare_eq in Ec. subst hp.
        destruct (nats.MsgAck _ _) as [c [e|]] eqn:Ha; simpl;
          [|discriminate].
        intros H. inversion H. rewrite Hq.
        split; [exact Hn|]. split; [reflexivity|].
        right. right. right. exists head, rest, c, e. auto.
      * intros H. inversion H. rewrite Hq.
        split; [exact Hn|]. split; [reflexivity|].
        right. left. exists head, rest, hp. repeat split; auto.
        intros E. subst hp. rewrite bytes_Compare_refl in Ec. discriminate.
    + simpl. intros H. inversion H. rewrite Hq.
      split; [exact Hn|]. split; [reflexivity|].
      right. right. left. exists head, rest, e. auto.
Qed.

End AckErrorProperties.

Section AckPolicyProperties.
Context {B : nats.Broker} {C : source.PositionCodec}.

(** X15. [Ack] tells the ack policy "none" from the others and nothing
    more: two iterators with the same connection, queue, consumer name,
    stream and subscription, both under a policy other than "none", answer
    an [Ack] alike. Under the policy "all" as under "explicit", every
    message is to be acknowledged, in order: the position of a later message
    of the queue is rejected as out of order. *)
Theorem Ack_same_for_all_and_explicit (i i' : source.Iterator) (p : bytes) :
  source.ackPolicy i <> nats.AckNonePolicy ->
  source.ackPolicy i' <> nats.AckNonePolicy ->
  source.conn i' = source.conn i ->
  source.unackMessages i' = source.unackMessages i ->
  nats.Name (source.consumerInfo i') = nats.Name (source.consumerInfo i) ->
  nats.Stream (source.consumerInfo i') = nats.Stream (source.consumerInfo i) ->
  source.subscription i' = source.subscription i ->
  snd (source.Ack i' p) = snd (source.Ack i p)
  /\ source.unackMessages (fst (source.Ack i' p))
     = source.unackMessages (fst (source.Ack i p))
  /\ source.conn (fst (source.Ack i' p)) = source.conn (fst (source.Ack i p)).
Proof.
  intros Hn Hn' Hc Hq Hna Hst Hsu.
  assert (Hp : forall msg,
             source.getMessagePosition i' msg = source.getMessagePosition i msg).
  { intros msg. unfold source.getMessagePosition, source.messagePosition.
    now rewrite Hna, Hst, Hsu. }
  unfold source.Ack, source.canAck.
  rewrite (AckPolicy_eqb_neq _ _ Hn), (AckPolicy_eqb_neq _ _ Hn'), Hq.
  destruct (source.unackMessages i) as [|head rest] eqn:Hqi;
    [simpl; rewrite ?Hq, ?Hqi; auto|].
  cbv beta iota. rewrite Hp.
  destruct (source.getMessagePosition i head) as [hp|e];
    [|simpl; rewrite ?Hq, ?Hqi; auto].
  destruct (negb (bytes_Compare hp p =? 0));
    [simpl; rewrite ?Hq, ?Hqi; auto|].
  rewrite Hc.
  destruct (nats.MsgAck _ _) as [c [err|]]; simpl; rewrite ?Hq, ?Hqi; auto.
Qed.

End AckPolicyProperties.

(** ** The further properties on explicit inputs *)

Lemma NewIterator_fresh_iterator_witness :
  let params := mem.params mem.open [] nats.AckExplicitPolicy in
  let i := mem.iterator mem.open nats.AckExplicitPolicy [] [] in
  source.NewIterator (C := mem.codec) params = (mem.open, Ok i)
  /\ source.HasNext i = false
  /\ source.Ack (C := mem.codec) i [x01]
     = (i, Some (Errorf "message cannot be acknowledged"
                   (ErrNoUnacknowledged [x01]))).
Proof.
  cbv zeta.
  assert (H : source.NewIterator (C := mem.codec)
                (mem.params mem.open [] nats.AckExplicitPolicy)
              = (mem.open,
                 Ok (mem.iterator mem.open nats.AckExplicitPolicy [] [])))
    by reflexivity.
  split; [exact H|].
  destruct (NewIterator_fresh_iterator (C := mem.codec) _ _ _ H)
    as (_ & _ & _ & Hh & _ & Ha).
  split; [exact Hh|]. apply Ha. discriminate.
Defined.

Lemma NewIterator_errors_witness :
  let params := mem.params mem.open [x00] nats.AckExplicitPolicy in
  let err :=
    Errorf "get consumer config" (Errorf "parse position" mem.malformed) in
  source.NewIterator (C := mem.codec) params = (mem.open, Err err)
  /\ ((exists e,
         nats.JetStream (source.params_Conn params) = Some e
         /\ mem.open = source.params_Conn params
         /\ err = Errorf "get jetstream context" e)
      \/ (exists e,
            source.parsePosition (PositionCodec := mem.codec)
              (source.params_SDKPosition params) = Err e
            /\ mem.open = source.params_Conn params
            /\ err = Errorf "get consumer config" (Errorf "parse position" e))
      \/ (exists cfg e,
            source.getConsumerConfig (C := mem.codec) params = Ok cfg
            /\ nats.AddConsumer (source.params_Conn params)
                 (source.params_Stream params) cfg = (mem.open, Err e)
            /\ err = Errorf "add jetstream consumer" e)
      \/ (exists cfg c1 info e,
            source.getConsumerConfig (C := mem.codec) params = Ok cfg
            /\ nats.AddConsumer (source.params_Conn params)
                 (source.params_Stream params) cfg = (c1, Ok info)
            /\ nats.ChanSubscribe c1 (source.params_Subject params)
                 (source.params_BufferSize params)
                 (nats.Durable (nats.Config info)) = (mem.open, Err e)
            /\ err = Errorf "chan subscribe" e)).
Proof.
  cbv zeta. split; [reflexivity|].
  apply (NewIterator_errors (C := mem.codec)
           (mem.params mem.open [x00] nats.AckExplicitPolicy)).
  reflexivity.
Defined.

Lemma HasNext_iff_Next_receives_witness :
  let i := mem.iterator mem.open nats.AckExplicitPolicy [] [] in
  source.HasNext i = false
  /\ source.Next (C := mem.codec) i context.Active time.zero source.caseRecv
     = None.
Proof.
  cbv zeta. split; [reflexivity|].
  apply (proj2 (HasNext_iff_Next_receives (C := mem.codec)
                  (mem.iterator mem.open nats.AckExplicitPolicy [] [])
                  context.Active time.zero)).
  reflexivity.
Defined.

Lemma position_stable_witness :
  let m := mem.msg 10 time.zero [x68; x69] in
  let i := mem.iterator mem.open nats.AckExplicitPolicy [m] [] in
  let evs := [source.CallNext context.Active mem.ts source.caseRecv] in
  let r :=
    {| sdk.Position := mem.positionOf i m;
       sdk.CreatedAt := mem.ts;
       sdk.Payload := sdk.RawData [x68; x69] |} in
  source.messageToRecord (C := mem.codec) i m mem.ts = Ok r
  /\ source.getMessagePosition (C := mem.codec)
       (source.run (C := mem.codec) i evs) m
     = Ok (sdk.Position r).
Proof.
  cbv zeta.
  assert (H : source.messageToRecord (C := mem.codec)
                (mem.iterator mem.open nats.AckExplicitPolicy
                   [mem.msg 10 time.zero [x68; x69]] [])
                (mem.msg 10 time.zero [x68; x69]) mem.ts
              = Ok {| sdk.Position :=
                        mem.positionOf
                          (mem.iterator mem.open nats.AckExplicitPolicy
                             [mem.msg 10 time.zero [x68; x69]] [])
                          (mem.msg 10 time.zero [x68; x69]);
                      sdk.CreatedAt := mem.ts;
                      sdk.Payload := sdk.RawData [x68; x69] |})
    by (vm_compute; reflexivity).
  split; [exact H|].
  apply (proj2 (position_stable (C := mem.codec)
                  (mem.iterator mem.open nats.AckExplicitPolicy
                     [mem.msg 10 time.zero [x68; x69]] [])
                  [source.CallNext context.Active mem.ts source.caseRecv]
                  (mem.msg 10 time.zero [x68; x69]) mem.ts time.zero) _ H).
Defined.

Lemma Next_errors_witness :
  let i :=
    mem.iterator mem.open nats.AckExplicitPolicy [mem.plainMsg [x68; x69]] [] in
  let i' := mem.iterator mem.open nats.AckExplicitPolicy [] [] in
  let err :=
    Errorf "convert message to record"
      (Errorf "get position"
         (Errorf "get message metadata"
            (ErrNats "nats: not a jetstream message"))) in
  source.Next (C := mem.codec) i context.Active time.zero source.caseRecv
    = Some (i', Err err)
  /\ ((source.caseRecv = source.caseDone
       /\ exists e, context.Err context.Active = Some e /\ err = ErrContext e)
      \/ (exists msg rest e,
            source.buf (source.messages i) = msg :: rest
            /\ nats.Metadata msg = Err e
            /\ err = Errorf "convert message to record"
                       (Errorf "get position"
                          (Errorf "get message metadata" e)))
      \/ (exists msg rest md e,
            source.buf (source.messages i) = msg :: rest
            /\ nats.Metadata msg = Ok md
            /\ source.marshalSDKPosition (PositionCodec := mem.codec)
                 (source.messagePosition i md) = Err e
            /\ err = Errorf "convert message to record"
                       (Errorf "get position"
                          (Errorf "marshal sdk position" e)))).
Proof.
  cbv zeta. split; [reflexivity|].
  apply (Next_errors (C := mem.codec)
           (mem.iterator mem.open nats.AckExplicitPolicy
              [mem.plainMsg [x68; x69]] [])
           (mem.iterator mem.open nats.AckExplicitPolicy [] [])
           context.Active time.zero source.caseRecv).
  reflexivity.
Defined.

Lemma broker_contacted_by_matching_ack_only_witness :
  let i := mem.iterator mem.open nats.AckNonePolicy [] [] in
  let evs :=
    [source.Delivered (mem.msg 10 mem.ts [x68; x69]);
     source.CallNext context.Active time.zero source.caseRecv;
     source.CallAck [x01]] in
  source.ackPolicy i = nats.AckNonePolicy
  /\ source.conn (source.run (C := mem.codec) i evs) = mem.open.
Proof.
  cbv zeta. split; [reflexivity|].
  apply (proj2 (proj2 (broker_contacted_by_matching_ack_only (C := mem.codec)
                         (mem.iterator mem.open nats.AckNonePolicy [] [])))).
  reflexivity.
Defined.



Lemma Stop_partial_teardown_witness :
  let i := mem.iterator mem.shut nats.AckExplicitPolicy [] [] in
  teardown.Unsubscribe (Calls := teardown.memCalls)
    (source.conn i) (source.subscription i)
    = (mem.shut, Some mem.ErrConnectionClosed)
  /\ teardown.DeleteConsumer (Calls := teardown.memCalls) mem.shut
       (nats.Stream (source.consumerInfo i)) (nats.Name (source.consumerInfo i))
     = (mem.shut, Some mem.ErrConnectionClosed)
  /\ teardown.Stop (T := teardown.memCalls) (teardown.running i)
     = (teardown.running (source.set_conn i mem.shut),
        Some (Errorf "unsubscribe" mem.ErrConnectionClosed)).
Proof.
  cbv zeta. split; [reflexivity|]. split; [reflexivity|].
  apply (proj1 (Stop_partial_teardown (T := teardown.memCalls)
                  (mem.iterator mem.shut nats.AckExplicitPolicy [] [])
                  mem.shut (Some mem.ErrConnectionClosed)
                  mem.shut (Some mem.ErrConnectionClosed)
                  eq_refl eq_refl)).
  reflexivity.
Defined.


Lemma WriteAll_unimplemented_witness :
  let w :=
    @destination.Build_Writer mem.broker
      mem.open "orders.new" 5 [nats.RetryAttempts 3] 0 3 in
  let record b := {| sdk.OutPayload := {| sdk.After := sdk.RawData [b] |} |} in
  destination.batchSize w > 1
  /\ history.WriteAll w [record x68; record x69]
     = (w, [Some ErrUnimplemented; Some ErrUnimplemented]).
Proof.
  cbv zeta. split; [reflexivity|].
  apply (WriteAll_unimplemented (B := mem.broker)). reflexivity.
Defined.

Lemma WriteAll_publishes_each_witness :
  let w :=
    @destination.Build_Writer mem.broker
      mem.open "orders.new" 0 [nats.RetryAttempts 3] 0 3 in
  let record b := {| sdk.OutPayload := {| sdk.After := sdk.RawData [b] |} |} in
  destination.batchSize w <= 1
  /\ mem.published
       (destination.conn (fst (history.WriteAll w [record x68; record x69])))
     = [("orders.new", [x68], [nats.RetryAttempts 3]);
        ("orders.new", [x69], [nats.RetryAttempts 3])].
Proof.
  cbv zeta. split; [discriminate|].
  rewrite (proj1 (WriteAll_publishes_each (B := mem.broker)
                    (@destination.Build_Writer mem.broker
                       mem.open "orders.new" 0 [nats.RetryAttempts 3] 0 3)
                    _ ltac:(discriminate))).
  reflexivity.
Defined.

Lemma Ack_errors_witness :
  let m s := mem.msg s mem.ts [x68; x69] in
  let i := mem.iterator mem.open nats.AckExplicitPolicy [] [m 10; m 11] in
  let p := mem.positionOf i (m 11) in
  let err :=
    Errorf "message cannot be acknowledged"
      (ErrOutOfOrderAck p (mem.positionOf i (m 10))) in
  snd (source.Ack (C := mem.codec) i p) = Some err
  /\ source.unackMessages (fst (source.Ack (C := mem.codec) i p))
     = [m 10; m 11].
Proof.
  cbv zeta.
  assert (H : snd (source.Ack (C := mem.codec)
                     (mem.iterator mem.open nats.AckExplicitPolicy []
                        [mem.msg 10 mem.ts [x68; x69];
                         mem.msg 11 mem.ts [x68; x69]])
                     (mem.positionOf
                        (mem.iterator mem.open nats.AckExplicitPolicy []
                           [mem.msg 10 mem.ts [x68; x69];
                            mem.msg 11 mem.ts [x68; x69]])
                        (mem.msg 11 mem.ts [x68; x69])))
              = Some (Errorf "message cannot be acknowledged"
                        (ErrOutOfOrderAck
                           (mem.positionOf
                              (mem.iterator mem.open nats.AckExplicitPolicy []
                                 [mem.msg 10 mem.ts [x68; x69];
                                  mem.msg 11 mem.ts [x68; x69]])
                              (mem.msg 11 mem.ts [x68; x69]))
                           (mem.positionOf
                              (mem.iterator mem.open nats.AckExplicitPolicy []
                                 [mem.msg 10 mem.ts [x68; x69];
                                  mem.msg 11 mem.ts [x68; x69]])
                              (mem.msg 10 mem.ts [x68; x69])))))
    by (vm_compute; reflexivity).
  split; [exact H|].
  apply (proj1 (proj2 (Ack_errors (C := mem.codec) _ _ _ H))).
Defined.

Lemma Ack_same_for_all_and_explicit_witness :
  let m s := mem.msg s mem.ts [x68; x69] in
  let i := mem.iterator mem.open nats.AckExplicitPolicy [] [m 10; m 11] in
  let i' := mem.iterator mem.open nats.AckAllPolicy [] [m 10; m 11] in
  let p := mem.positionOf i (m 11) in
  source.ackPolicy i <> nats.AckNonePolicy
  /\ source.ackPolicy i' <> nats.AckNonePolicy
  /\ snd (source.Ack (C := mem.codec) i' p)
     = Some (Errorf "message cannot be acknowledged"
               (ErrOutOfOrderAck p (mem.positionOf i (m 10)))).
Proof.
  cbv zeta. split; [discriminate|]. split; [discriminate|].
  rewrite (proj1 (Ack_same_for_all_and_explicit (C := mem.codec)
                    (mem.iterator mem.open nats.AckExplicitPolicy []
                       [mem.msg 10 mem.ts [x68; x69];
                        mem.msg 11 mem.ts [x68; x69]])
                    (mem.iterator mem.open nats.AckAllPolicy []
                       [mem.msg 10 mem.ts [x68; x69];
                        mem.msg 11 mem.ts [x68; x69]])
                    _ ltac:(discriminate) ltac:(discriminate)
                    eq_refl eq_refl eq_refl eq_refl eq_refl)).
  vm_compute. reflexivity.
Defined.
